(** * WCAG 2.4.7 focus-visible checker: traversal, batching, aggregation

    A shallow embedding of [wcag_focus_visible_checker.py].  The browser
    driver, the classification service and [json.loads] are external to the
    program; they appear as parameters (what the k-th Tab press shows, what
    the k-th service call answers, what a text decodes to).  Everything the
    script itself computes is a function below, named as in the source. *)

From Stdlib Require Import ZArith Lia Ascii String List.
From stdpp Require Import base gmap list strings pretty.

Local Open Scope string_scope.
Local Open Scope list_scope.
Set Warnings "-register-all".

(* ===================================================================== *)
(** ** Python values, as [json.loads] produces them *)
(* ===================================================================== *)

(** A float is kept as mantissa and binary exponent; only its being zero
    matters to the program (truth value). *)
Inductive pyfloat :=
| FNaN
| FInf (negative : bool)
| FFin (mantissa exponent : Z).

(** A dict is kept as its items in insertion order; a key is looked up by
    its first binding. *)
Inductive pyval :=
| PNone
| PBool (b : bool)
| PInt (z : Z)
| PFloat (f : pyfloat)
| PStr (s : string)
| PList (items : list pyval)
| PDict (items : list (string * pyval)).

(** The exceptions the modelled code can meet. *)
Inductive pyexc :=
| TypeError
| AttributeError
| KeyError
| APIError                        (* raised by the service client *)
| WebDriverException.             (* raised by the browser driver *)

Inductive res (A : Type) :=
| Ok (a : A)
| Raise (e : pyexc).
Arguments Ok {A} a.
Arguments Raise {A} e.

(** Sequencing: an exception ends the computation.  With the instances,
    stdpp's [x ← r; k] is the notation. *)
#[export] Instance res_ret : MRet res := fun A a => Ok a.
#[export] Instance res_bind : MBind res := fun A B k r =>
  match r with
  | Ok a => k a
  | Raise e => Raise e
  end.

(** [bool(v)] *)
Definition truthy (v : pyval) : bool :=
  match v with
  | PNone => false
  | PBool b => b
  | PInt z => negb (z =? 0)%Z
  | PFloat FNaN => true
  | PFloat (FInf _) => true
  | PFloat (FFin m _) => negb (m =? 0)%Z
  | PStr s => negb (Nat.eqb (String.length s) 0)
  | PList l => negb (Nat.eqb (length l) 0)
  | PDict d => negb (Nat.eqb (length d) 0)
  end.

Fixpoint dict_lookup (key : string) (d : list (string * pyval)) : option pyval :=
  match d with
  | [] => None
  | (k, v) :: rest => if String.eqb k key then Some v else dict_lookup key rest
  end.

(** [needle in hay] on strings: the substring test. *)
Fixpoint str_contains (needle hay : string) : bool :=
  if String.prefix needle hay then true
  else match hay with
       | EmptyString => false
       | String _ rest => str_contains needle rest
       end.

Definition is_str (key : string) (v : pyval) : bool :=
  match v with
  | PStr s => String.eqb s key
  | _ => false
  end.

(** [key in v] for a string key. *)
Definition py_in (key : string) (v : pyval) : res bool :=
  match v with
  | PDict d => Ok (match dict_lookup key d with Some _ => true | None => false end)
  | PList l => Ok (existsb (is_str key) l)
  | PStr s => Ok (str_contains key s)
  | _ => Raise TypeError
  end.

(** [v[key]] for a string key. *)
Definition py_getitem (v : pyval) (key : string) : res pyval :=
  match v with
  | PDict d => match dict_lookup key d with
               | Some x => Ok x
               | None => Raise KeyError
               end
  | _ => Raise TypeError
  end.

(** [v.get(key, default)]: only a dict has the method. *)
Definition py_get (v : pyval) (key : string) (default : pyval) : res pyval :=
  match v with
  | PDict d => Ok (match dict_lookup key d with
                   | Some x => x
                   | None => default
                   end)
  | _ => Raise AttributeError
  end.

(** [len(v)] *)
Definition py_len (v : pyval) : res nat :=
  match v with
  | PStr s => Ok (String.length s)
  | PList l => Ok (length l)
  | PDict d => Ok (length d)
  | _ => Raise TypeError
  end.

Fixpoint chars (s : string) : list pyval :=
  match s with
  | EmptyString => []
  | String c rest => PStr (String c EmptyString) :: chars rest
  end.

(** What [list.extend(v)] iterates over: the items of a list, the keys of a
    dict, the characters of a string. *)
Definition py_iter (v : pyval) : res (list pyval) :=
  match v with
  | PList l => Ok l
  | PDict d => Ok (map (fun kv => PStr (fst kv)) d)
  | PStr s => Ok (chars s)
  | _ => Raise TypeError
  end.

(* ===================================================================== *)
(** ** Ranges and slices *)
(* ===================================================================== *)

(** [range(lo, hi, step)] for a positive step. *)
Definition py_range (lo hi step : nat) : list nat :=
  let n := if Nat.ltb lo hi then 1 + (hi - 1 - lo) / step else 0 in
  map (fun k => lo + k * step) (seq 0 n).

(** [l[a:b]] for indices that are not negative. *)
Definition py_slice {A} (l : list A) (a b : nat) : list A :=
  take (b - a) (drop a l).

(* ===================================================================== *)
(** ** Batch partitioning ([process_focus_results], first lines) *)
(* ===================================================================== *)

Definition batch_size : nat := 5.

Definition make_batches {A} (focus_results : list A) : list (list A) :=
  map (fun i => py_slice focus_results i (i + batch_size))
      (py_range 0 (length focus_results) batch_size).

(* ===================================================================== *)
(** ** String primitives used on the service's answer *)
(* ===================================================================== *)

(** [s.find(c)] for a one-character pattern: the first index, or -1. *)
Fixpoint py_find (s : string) (c : ascii) : Z :=
  match s with
  | EmptyString => (-1)%Z
  | String x rest =>
      if Ascii.eqb x c then 0%Z
      else let r := py_find rest c in
           if (r =? -1)%Z then (-1)%Z else (r + 1)%Z
  end.

(** [s.rfind(c)]: the last index, or -1. *)
Fixpoint py_rfind (s : string) (c : ascii) : Z :=
  match s with
  | EmptyString => (-1)%Z
  | String x rest =>
      let r := py_rfind rest c in
      if (r =? -1)%Z then (if Ascii.eqb x c then 0%Z else (-1)%Z)
      else (r + 1)%Z
  end.

(** [s[a:b]] on a string, for indices that are not negative. *)
Definition str_slice (s : string) (a b : Z) : string :=
  String.substring (Z.to_nat a) (Z.to_nat b - Z.to_nat a) s.

(** [s.replace(old, new)] for a one-character [old] and [new]. *)
Fixpoint py_replace_char (old new : ascii) (s : string) : string :=
  match s with
  | EmptyString => EmptyString
  | String c rest =>
      String (if Ascii.eqb c old then new else c) (py_replace_char old new rest)
  end.

(** [s.replace(old, new)] for a two-character [old], occurrences taken left
    to right without overlap. *)
Fixpoint py_replace_pair (old1 old2 : ascii) (new : string) (s : string) : string :=
  match s with
  | String c1 (String c2 rest as tl) =>
      if Ascii.eqb c1 old1 && Ascii.eqb c2 old2
      then new +:+ py_replace_pair old1 old2 new rest
      else String c1 (py_replace_pair old1 old2 new tl)
  | _ => s
  end.

(** [c.isspace()] on the ASCII range. *)
Definition is_space (c : ascii) : bool :=
  let n := nat_of_ascii c in
  (Nat.leb 9 n && Nat.leb n 13) || (Nat.leb 28 n && Nat.leb n 32).

Fixpoint py_lstrip (s : string) : string :=
  match s with
  | EmptyString => EmptyString
  | String c rest => if is_space c then py_lstrip rest else s
  end.

Fixpoint py_rstrip (s : string) : string :=
  match s with
  | EmptyString => EmptyString
  | String c rest =>
      match py_rstrip rest with
      | EmptyString => if is_space c then EmptyString else String c EmptyString
      | r => String c r
      end
  end.

(** [s.strip()] *)
Definition py_strip (s : string) : string := py_rstrip (py_lstrip s).

Definition quote : ascii := ascii_of_nat 39.
Definition dquote : ascii := ascii_of_nat 34.
Definition backslash : ascii := ascii_of_nat 92.
Definition newline : ascii := ascii_of_nat 10.
Definition lbrace : ascii := ascii_of_nat 123.
Definition rbrace : ascii := ascii_of_nat 125.

(* ===================================================================== *)
(** ** Focus traversal ([check_focus_visibility], the Tab loop) *)
(* ===================================================================== *)

(** The [element_info] dict appended per Tab step. *)
Record focus_record := {
  tab_index : nat;
  element_tag : string;
  element_type : string;
  element_id : string;
  element_class : string;
  element_text : string;
  element_role : string;
  element_xpath : string;
  before_tab_screenshot : string;
  after_tab_screenshot : string
}.

(** [generate_xpath]: the script returns a path, or the call raises. *)
Inductive xpath_outcome :=
| XPath (s : string)
| XPathRaises.

(** What the driver shows during one pass through the loop body. *)
Record tab_obs := {
  obs_before : string;            (* take_screenshot before the Tab *)
  obs_tag : string;               (* document.activeElement.tagName *)
  obs_type : string;
  obs_id : string;
  obs_class : string;
  obs_text : string;
  obs_role : string;
  obs_xpath : xpath_outcome;      (* generate_xpath *)
  obs_after : option string       (* take_screenshot after; None: it raises *)
}.

Inductive tab_outcome :=
| DriverRaises                    (* a driver call of the iteration raises *)
| Focused (o : tab_obs).

Definition max_tabs : nat := 100.

(** [f"{element_tag}_{element_id}_{element_class}_{element_xpath}"] *)
Definition element_signature (tag id cls xpath : string) : string :=
  tag +:+ "_" +:+ id +:+ "_" +:+ cls +:+ "_" +:+ xpath.

Definition obs_locator (o : tab_obs) : string :=
  match obs_xpath o with
  | XPath s => s
  | XPathRaises => "Unknown"
  end.

Definition obs_signature (o : tab_obs) : string :=
  element_signature (obs_tag o) (obs_id o) (obs_class o) (obs_locator o).

Definition element_info (tab_index : nat) (o : tab_obs) (after : string) : focus_record :=
  {| tab_index := tab_index;
     element_tag := obs_tag o;
     element_type := obs_type o;
     element_id := obs_id o;
     element_class := obs_class o;
     element_text := String.substring 0 100 (obs_text o);
     element_role := obs_role o;
     element_xpath := obs_locator o;
     before_tab_screenshot := obs_before o;
     after_tab_screenshot := after |}.

Section Traversal.
(** [browser k]: what the k-th pass through the loop body observes. *)
Variable browser : nat -> tab_outcome.

(** [while tab_index < max_tabs: ...]; every pass that goes on raises
    [tab_index] by one, so [max_tabs] units of fuel are never used up
    before the guard fails ([tab_loop_fuel] below). *)
Fixpoint tab_loop (fuel tab_index : nat) (previously_focused_elements : gset string)
    (focus_results : list focus_record) : res (list focus_record) :=
  match fuel with
  | 0 => Ok focus_results
  | S fuel' =>
      if Nat.ltb tab_index max_tabs then
        match browser tab_index with
        | DriverRaises => Raise WebDriverException
        | Focused o =>
            let element_signature := obs_signature o in
            if bool_decide (element_signature ∈ previously_focused_elements)
            then Ok focus_results                                    (* break *)
            else
              match obs_after o with
              | None => Raise WebDriverException
              | Some after =>
                  tab_loop fuel' (S tab_index)
                    ({[element_signature]} ∪ previously_focused_elements)
                    (focus_results ++ [element_info tab_index o after])
              end
        end
      else Ok focus_results
  end.

Definition traverse : res (list focus_record) :=
  tab_loop max_tabs 0 ∅ [].
End Traversal.

(* ===================================================================== *)
(** ** Classification of one batch ([analyze_focus_batch]) *)
(* ===================================================================== *)

(** The metadata of an element, as listed in the prompt (no screenshots). *)
Record element_data := {
  ed_tab_index : nat;
  ed_tag : string;
  ed_type : string;
  ed_id : string;
  ed_class : string;
  ed_text : string;
  ed_role : string;
  ed_xpath : string
}.

Inductive media_block :=
| Image (data : string)
| Label (image_no tab_index : nat) (tag : string) (after_focus : bool).

Record request := {
  req_media : list media_block;
  req_url : string;
  req_elements : list element_data
}.

Definition element_data_of (element : focus_record) : element_data :=
  {| ed_tab_index := tab_index element;
     ed_tag := element_tag element;
     ed_type := element_type element;
     ed_id := element_id element;
     ed_class := element_class element;
     ed_text := element_text element;
     ed_role := element_role element;
     ed_xpath := element_xpath element |}.

(** [for i, element in enumerate(focus_batch)]: four blocks per element. *)
Fixpoint media_blocks (i : nat) (focus_batch : list focus_record) : list media_block :=
  match focus_batch with
  | [] => []
  | element :: rest =>
      Image (before_tab_screenshot element)
      :: Label (i * 2 + 1) (tab_index element) (element_tag element) false
      :: Image (after_tab_screenshot element)
      :: Label (i * 2 + 2) (tab_index element) (element_tag element) true
      :: media_blocks (S i) rest
  end.

Definition build_request (focus_batch : list focus_record) (url : string) : request :=
  {| req_media := media_blocks 0 focus_batch;
     req_url := url;
     req_elements := map element_data_of focus_batch |}.

(** What a call of the service does. *)
Inductive service_outcome :=
| ClientRaises                    (* anthropic.Anthropic(...) raises, outside the try *)
| RequestRaises                   (* messages.create or reading its text raises *)
| Response (response_text : string).

(** The messages the pipeline prints when something is skipped. *)
Inductive event :=
| RequestFailed                   (* the request raised; this batch is skipped *)
| AnalysisDone (n : nat)          (* analysis of n elements completed *)
| NoElementsField                 (* warning: no elements field in the answer *)
| JsonDecodeFailed                (* error: parsing the JSON data failed *)
| NoJsonFound                     (* warning: no JSON data could be extracted *)
| ResponseProcessingFailed        (* error: problem while processing the answer *)
| BatchSkipped (batch_no : nat)   (* warning: batch has no result, skipped *)
| BatchFailed (batch_no : nat)    (* error: problem in batch; skipped, going on *)
| ResultIncomplete (tab_index : pyval).  (* warning: analysis of element incomplete *)

(** [response_text[start_idx:end_idx]] with both replacements and [strip]. *)
Definition extract_json (response_text : string) (start_idx end_idx : Z) : string :=
  let json_str := str_slice response_text start_idx end_idx in
  py_strip
    (py_replace_pair backslash "n" (String newline EmptyString)
       (py_replace_char quote dquote json_str)).

(* ===================================================================== *)
(** ** Aggregation ([process_focus_results]) *)
(* ===================================================================== *)

Record final_report := {
  url : string;
  total_focusable_elements : nat;
  visible_focus_elements : nat;
  invisible_focus_elements : nat;
  visible_elements : list pyval;
  invisible_elements : list pyval;
  wcag_2_4_7_compliant : bool
}.

(** [for result in all_analyzed_results: ...]; the warning of the skipped
    entry evaluates [result.get('tab_index', '不明')].  Strings are byte
    strings, here in UTF-8. *)
Fixpoint categorize (results visible invisible : list pyval) (log : list event)
    : res (list pyval * list pyval) * list event :=
  match results with
  | [] => (Ok (visible, invisible), log)
  | result :: rest =>
      match py_in "analysis" result with
      | Raise e => (Raise e, log)
      | Ok false =>
          match py_get result "tab_index" (PStr "不明") with
          | Raise e => (Raise e, log)
          | Ok idx => categorize rest visible invisible (log ++ [ResultIncomplete idx])
          end
      | Ok true =>
          match (analysis ← py_getitem result "analysis";
                 py_get analysis "focus_visible" (PBool false)) with
          | Raise e => (Raise e, log)
          | Ok focus_visible =>
              if truthy focus_visible
              then categorize rest (visible ++ [result]) invisible log
              else categorize rest visible (invisible ++ [result]) log
          end
      end
  end.

(** The dict built after the loop. *)
Definition make_report (url : string) (all_analyzed_results visible invisible : list pyval)
    : final_report :=
  {| url := url;
     total_focusable_elements := length all_analyzed_results;
     visible_focus_elements := length visible;
     invisible_focus_elements := length invisible;
     visible_elements := visible;
     invisible_elements := invisible;
     wcag_2_4_7_compliant := Nat.eqb (length invisible) 0 |}.

Section Pipeline.
(** [service k req]: what the k-th call of the service does. *)
Variable service : nat -> request -> service_outcome.
(** [json.loads]; [None] stands for [JSONDecodeError]. *)
Variable json_loads : string -> option pyval.

(** The second try block of [analyze_focus_batch]. *)
Definition parse_response (response_text : string) : option pyval * list event :=
  let start_idx := py_find response_text lbrace in
  let end_idx := (py_rfind response_text rbrace + 1)%Z in
  if negb (start_idx =? -1)%Z && negb (end_idx =? -1)%Z then
    match json_loads (extract_json response_text start_idx end_idx) with
    | None => (None, [JsonDecodeFailed])
    | Some result =>
        match py_in "elements" result with
        | Raise _ => (None, [ResponseProcessingFailed])
        | Ok false => (None, [NoElementsField])
        | Ok true =>
            match (elements ← py_getitem result "elements";
                   n ← py_len elements;
                   mret (elements, n)) with
            | Raise _ => (None, [ResponseProcessingFailed])
            | Ok (elements, n) => (Some elements, [AnalysisDone n])
            end
        end
    end
  else (None, [NoJsonFound]).

(** [analyze_focus_batch]; the outer [res] is an exception that leaves the
    function, the inner option is its return value ([None] or the list). *)
Definition analyze_focus_batch (call : nat) (focus_batch : list focus_record)
    (initial_screenshot url : string) : res (option pyval) * list event :=
  match service call (build_request focus_batch url) with
  | ClientRaises => (Raise APIError, [])
  | RequestRaises => (Ok None, [RequestFailed])
  | Response response_text =>
      let '(r, log) := parse_response response_text in (Ok r, log)
  end.

(** One pass through [for batch_idx, batch in enumerate(batches)]: what is
    appended to [all_analyzed_results] and what is printed. *)
Definition analyze_step (batch_idx : nat) (batch : list focus_record)
    (initial_screenshot url : string) : list pyval * list event :=
  match analyze_focus_batch batch_idx batch initial_screenshot url with
  | (Raise _, log) => ([], log ++ [BatchFailed (batch_idx + 1)])
  | (Ok None, log) => ([], log ++ [BatchSkipped (batch_idx + 1)])
  | (Ok (Some analyzed_batch), log) =>
      if truthy analyzed_batch then
        match py_iter analyzed_batch with
        | Ok items => (items, log)                        (* extend *)
        | Raise _ => ([], log ++ [BatchFailed (batch_idx + 1)])
        end
      else ([], log ++ [BatchSkipped (batch_idx + 1)])
  end.

Fixpoint analyze_batches (batch_idx : nat) (batches : list (list focus_record))
    (initial_screenshot url : string)
    (all_analyzed_results : list pyval) (log : list event)
    : list pyval * list event :=
  match batches with
  | [] => (all_analyzed_results, log)
  | batch :: rest =>
      let '(items, l) := analyze_step batch_idx batch initial_screenshot url in
      analyze_batches (S batch_idx) rest initial_screenshot url
        (all_analyzed_results ++ items) (log ++ l)
  end.

Definition process_focus_results (focus_results : list focus_record)
    (initial_screenshot url : string) : res final_report * list event :=
  let batches := make_batches focus_results in
  let '(all_analyzed_results, log) :=
    analyze_batches 0 batches initial_screenshot url [] [] in
  match categorize all_analyzed_results [] [] log with
  | (Ok (visible, invisible), log') =>
      (Ok (make_report url all_analyzed_results visible invisible), log')
  | (Raise e, log') => (Raise e, log')
  end.
End Pipeline.

(* ===================================================================== *)
(** ** The run and its resources ([setup_driver], [cleanup_temp_dir],
       [check_focus_visibility]) *)
(* ===================================================================== *)

(** What exists outside the process. *)
Record os_state := {
  temp_dirs : gset string;        (* directories on disk *)
  sessions : gset nat             (* browser sessions alive *)
}.

(** Everything external to one run. *)
Record world := {
  mkdtemp : string;               (* the directory tempfile.mkdtemp() makes *)
  chrome : option nat;            (* webdriver.Chrome(...): the session, None: it raises *)
  page_ready : bool;              (* get, wait, first screenshot, click and HOME succeed *)
  initial_shot : string;
  browser : nat -> tab_outcome;
  service : nat -> request -> service_outcome;
  json_loads : string -> option pyval;
  quit_raises : bool;             (* driver.quit() raises *)
  rmtree_removes : bool           (* rmtree(ignore_errors=True) really removes *)
}.

(** [setup_driver]: the directory is made first, then Chrome is started. *)
Definition setup_driver (w : world) (os : os_state) : res (nat * string) * os_state :=
  let temp_dir := mkdtemp w in
  let os1 := {| temp_dirs := {[temp_dir]} ∪ temp_dirs os; sessions := sessions os |} in
  match chrome w with
  | None => (Raise WebDriverException, os1)
  | Some driver =>
      (Ok (driver, temp_dir),
       {| temp_dirs := temp_dirs os1; sessions := {[driver]} ∪ sessions os1 |})
  end.

(** [cleanup_temp_dir]: nothing is raised, whatever [rmtree] does. *)
Definition cleanup_temp_dir (w : world) (temp_dir : string) (os : os_state) : os_state :=
  if negb (Nat.eqb (String.length temp_dir) 0) && bool_decide (temp_dir ∈ temp_dirs os)
  then if rmtree_removes w
       then {| temp_dirs := temp_dirs os ∖ {[temp_dir]}; sessions := sessions os |}
       else os
  else os.

Definition driver_quit (w : world) (driver : nat) (os : os_state) : res unit * os_state :=
  if quit_raises w then (Raise WebDriverException, os)
  else (Ok tt, {| temp_dirs := temp_dirs os; sessions := sessions os ∖ {[driver]} |}).

(** The body of the second try block. *)
Definition traverse_and_process (w : world) (url : string) : res final_report * list event :=
  if page_ready w then
    match traverse (browser w) with
    | Raise e => (Raise e, [])
    | Ok focus_results =>
        process_focus_results (service w) (json_loads w) focus_results (initial_shot w) url
    end
  else (Raise WebDriverException, []).

Definition check_focus_visibility (w : world) (url : string) (os : os_state)
    : res final_report * list event * os_state :=
  match setup_driver w os with
  | (Raise e, os1) => (Raise e, [], os1)                   (* except: ...; raise *)
  | (Ok (driver, temp_dir), os1) =>
      let '(result, log) := traverse_and_process w url in
      (* finally: driver.quit(); cleanup_temp_dir(temp_dir) *)
      match driver_quit w driver os1 with
      | (Raise e, os2) => (Raise e, log, os2)
      | (Ok _, os2) => (result, log, cleanup_temp_dir w temp_dir os2)
      end
  end.

(** ** The older copy of the script ([wcag_focus_visible_checker copy.py])

    It differs in the aggregation loop: no check for the analysis key, and
    the judgement is read by subscript. *)
Module Copy.
Fixpoint categorize (results visible invisible : list pyval)
    : res (list pyval * list pyval) :=
  match results with
  | [] => Ok (visible, invisible)
  | result :: rest =>
      focus_visible ← (analysis ← py_getitem result "analysis";
                       py_getitem analysis "focus_visible");
      if truthy focus_visible
      then categorize rest (visible ++ [result]) invisible
      else categorize rest visible (invisible ++ [result])
  end.

(** In the copy the client is created and the request is sent outside of any
    try block; only reading and parsing the answer is guarded. *)
Inductive service_outcome :=
| ClientRaises                    (* anthropic.Anthropic(...) raises *)
| CreateRaises                    (* client.messages.create(...) raises *)
| TextRaises                      (* message.content[0].text raises, inside the try *)
| Response (response_text : string).

Section CopyPipeline.
Variable service : nat -> request -> service_outcome.
Variable json_loads : string -> option pyval.

(** The try block of the copy's [analyze_focus_batch]: every exception in it
    is caught, and [None] is returned. *)
Definition parse_response (response_text : string) : option pyval :=
  let start_idx := py_find response_text lbrace in
  let end_idx := (py_rfind response_text rbrace + 1)%Z in
  if negb (start_idx =? -1)%Z && negb (end_idx =? -1)%Z then
    match json_loads (extract_json response_text start_idx end_idx) with
    | None => None
    | Some result =>
        match py_in "elements" result with
        | Ok true =>
            match py_getitem result "elements" with
            | Ok elements => Some elements
            | Raise _ => None
            end
        | _ => None
        end
    end
  else None.

Definition analyze_focus_batch (call : nat) (focus_batch : list focus_record)
    (initial_screenshot url : string) : res (option pyval) :=
  match service call (build_request focus_batch url) with
  | ClientRaises => Raise APIError
  | CreateRaises => Raise APIError
  | TextRaises => Ok None
  | Response response_text => Ok (parse_response response_text)
  end.

(** [for batch_idx, batch in enumerate(batches)], without a try block. *)
Fixpoint analyze_batches (batch_idx : nat) (batches : list (list focus_record))
    (initial_screenshot url : string) (all_analyzed_results : list pyval)
    : res (list pyval) :=
  match batches with
  | [] => Ok all_analyzed_results
  | batch :: rest =>
      analyzed_batch ← analyze_focus_batch batch_idx batch initial_screenshot url;
      match analyzed_batch with
      | Some v =>
          if truthy v then
            items ← py_iter v;
            analyze_batches (S batch_idx) rest initial_screenshot url
              (all_analyzed_results ++ items)
          else
            analyze_batches (S batch_idx) rest initial_screenshot url all_analyzed_results
      | None =>
          analyze_batches (S batch_idx) rest initial_screenshot url all_analyzed_results
      end
  end.

Definition process_focus_results (focus_results : list focus_record)
    (initial_screenshot url : string) : res final_report :=
  all_analyzed_results ←
    analyze_batches 0 (make_batches focus_results) initial_screenshot url [];
  lists ← categorize all_analyzed_results [] [];
  mret (make_report url all_analyzed_results (fst lists) (snd lists)).
End CopyPipeline.
End Copy.

(* ===================================================================== *)
(** ** The command line ([main]) *)
(* ===================================================================== *)

(** What [main] prints, line by line; the values shown are kept as values. *)
Inductive line :=
| Usage
| Started (url : string)
| ReportHeader (url : string) (total visible invisible : nat) (compliant : bool)
| InvisibleSection
| VisibleSection
| ElementHeader (tab_index tag : pyval)
| IdLine (v : pyval)
| ClassLine (v : pyval)
| TextLine (v : pyval)
| XPathLine (v : pyval)
| AnalysisLine (v : pyval)
| AnalysisMissing
| RecommendationLine (v : pyval)
| FocusIndicatorLine (v : pyval)
| FocusIndicatorMissing
| TechniquesHeader
| TechniqueLine (v : pyval)
| ElementError                    (* the except branch inside the element loop *)
| RunError (e : pyexc).           (* the except branch of main *)

(** [a or b] *)
Definition py_or (a b : pyval) : pyval := if truthy a then a else b.

Definition none_text : pyval := PStr "なし".
Definition default_recommendation : pyval :=
  PStr "この要素にフォーカス表示を追加してください".

(** The prints of one try block in order: the lines of every step that
    succeeds, and the error line in place of the first step that raises. *)
Fixpoint run_prints (steps : list (res (list line))) : list line :=
  match steps with
  | [] => []
  | Ok ls :: rest => ls ++ run_prints rest
  | Raise _ :: _ => [ElementError]
  end.

Definition print_header (element : pyval) : res (list line) :=
  tab_index ← py_getitem element "tab_index";
  tag ← py_getitem element "element_tag";
  mret [ElementHeader tab_index tag].

(** [element.get(key, '') or 'なし'] *)
Definition print_field (mk : pyval -> line) (element : pyval) (key : string)
    : res (list line) :=
  v ← py_get element key (PStr "");
  mret [mk (py_or v none_text)].

(** The body of the loop over [results['invisible_elements']]. *)
Definition print_invisible_element (element : pyval) : list line :=
  run_prints
    [ print_header element;
      print_field IdLine element "element_id";
      print_field ClassLine element "element_class";
      print_field TextLine element "element_text";
      (v ← py_get element "element_xpath" none_text; mret [XPathLine v]);
      (has ← py_in "analysis" element;
       if has : bool then
         analysis ← py_getitem element "analysis";
         described ← py_in "focus_indicator_description" analysis;
         if described : bool then
           d ← py_getitem analysis "focus_indicator_description";
           mret [AnalysisLine d]
         else mret [AnalysisMissing]
       else mret [AnalysisMissing; RecommendationLine default_recommendation]);
      (has ← py_in "analysis" element;
       if has : bool then
         analysis ← py_getitem element "analysis";
         r ← py_get analysis "recommendation" default_recommendation;
         mret [RecommendationLine r]
       else mret []) ].

(** ['analysis' in element and key in element['analysis']] *)
Definition analysis_has (element : pyval) (key : string) : res bool :=
  has ← py_in "analysis" element;
  if has : bool then
    analysis ← py_getitem element "analysis";
    py_in key analysis
  else mret false.

(** The body of the loop over [results['visible_elements']]. *)
Definition print_visible_element (element : pyval) : list line :=
  run_prints
    [ print_header element;
      print_field IdLine element "element_id";
      print_field ClassLine element "element_class";
      print_field TextLine element "element_text";
      (described ← analysis_has element "focus_indicator_description";
       if described : bool then
         analysis ← py_getitem element "analysis";
         d ← py_getitem analysis "focus_indicator_description";
         mret [FocusIndicatorLine d]
       else mret [FocusIndicatorMissing]);
      (listed ← analysis_has element "compliance_techniques";
       mret (if listed : bool then [TechniquesHeader] else []));
      (listed ← analysis_has element "compliance_techniques";
       if listed : bool then
         analysis ← py_getitem element "analysis";
         techniques ← py_getitem analysis "compliance_techniques";
         items ← py_iter techniques;
         mret (map TechniqueLine items)
       else mret []) ].

Definition print_report (results : final_report) : list line :=
  ReportHeader (url results) (total_focusable_elements results)
    (visible_focus_elements results) (invisible_focus_elements results)
    (wcag_2_4_7_compliant results)
  :: (if negb (wcag_2_4_7_compliant results)
      then InvisibleSection :: flat_map print_invisible_element (invisible_elements results)
      else [])
  ++ VisibleSection :: flat_map print_visible_element (visible_elements results).

(** What a call of the program leaves. *)
Record outcome := {
  exit_code : nat;
  messages : list event;          (* printed by the pipeline *)
  printed : list line;            (* printed by main *)
  machine : os_state
}.

(** [main], for [sys.argv = argv]. *)
Definition main (argv : list string) (w : world) (os : os_state) : outcome :=
  match argv with
  | [_; url] =>
      let '(result, log, os') := check_focus_visibility w url os in
      match result with
      | Ok results =>
          {| exit_code := 0; messages := log;
             printed := Started url :: print_report results; machine := os' |}
      | Raise e =>
          {| exit_code := 1; messages := log;
             printed := [Started url; RunError e]; machine := os' |}
      end
  | _ => {| exit_code := 1; messages := []; printed := [Usage]; machine := os |}
  end.

(* ===================================================================== *)
(** ** The locator script ([generate_xpath], function getPathTo) *)
(* ===================================================================== *)

(** A node of the page as the script reads it: an element has a tag name
    and an id (empty when it has none); any other node (text, comment, the
    document itself) has neither, and its id reads as undefined. *)
Inductive dom_node :=
| Element (tag_name id : string)
| OtherNode.

(** A node with its way up: the child nodes of its parent that precede it,
    whether it is [document.body], and its parent; or a node whose
    [parentNode] is null. *)
Inductive located :=
| Root (n : dom_node)
| Child (n : dom_node) (is_body : bool) (before : list dom_node) (parent : located).

Definition node_of (e : located) : dom_node :=
  match e with
  | Root n => n
  | Child n _ _ _ => n
  end.

(** [s.toLowerCase()] on the ASCII range. *)
Definition lower_char (c : ascii) : ascii :=
  let n := nat_of_ascii c in
  if Nat.leb 65 n && Nat.leb n 90 then ascii_of_nat (n + 32) else c.

Fixpoint to_lower (s : string) : string :=
  match s with
  | EmptyString => EmptyString
  | String c rest => String (lower_char c) (to_lower rest)
  end.

(** [sibling.nodeType === 1 && sibling.tagName === element.tagName] *)
Definition same_tag_element (tag : string) (sibling : dom_node) : bool :=
  match sibling with
  | Element t _ => String.eqb t tag
  | OtherNode => false
  end.

(** The loop over [siblings] up to the element itself. *)
Definition sibling_index (tag : string) (before : list dom_node) : nat :=
  length (List.filter (same_tag_element tag) before).

Definition id_path (id : string) : string :=
  "//*[@id=" +:+ String dquote id +:+ String dquote "]".

Fixpoint getPathTo (element : located) : res string :=
  match element with
  | Root (Element tag id) =>
      if negb (String.eqb id "") then Ok (id_path id)
      else Raise TypeError                      (* parentNode is null *)
  | Root OtherNode => Ok (id_path "undefined")
  | Child (Element tag id) is_body before parent =>
      if negb (String.eqb id "") then Ok (id_path id)
      else if is_body then Ok "/html/body"
      else
        path ← getPathTo parent;
        mret (path +:+ "/" +:+ to_lower tag +:+ "["
              +:+ pretty (sibling_index tag before + 1) +:+ "]")
  | Child OtherNode _ _ _ => Ok (id_path "undefined")
  end.

(** [generate_xpath] as the Tab loop sees it: a path, or an exception. *)
Definition generate_xpath (element : located) : xpath_outcome :=
  match getPathTo element with
  | Ok path => XPath path
  | Raise _ => XPathRaises
  end.

(* ===================================================================== *)
(** * Vocabulary of the properties *)
(* ===================================================================== *)

(** ** Counting *)

Definition ceil_div (n d : nat) : nat := (n + (d - 1)) / d.

(** ** One entry of the aggregation loop *)

(** What the body of the loop in [categorize] does with one entry
    ([categorize_cons] below: the loop is this function, entry after entry). *)
Inductive verdict :=
| Visible
| Invisible
| Skipped (idx : pyval).

Definition judge (result : pyval) : res verdict :=
  has ← py_in "analysis" result;
  if has : bool then
    analysis ← py_getitem result "analysis";
    focus_visible ← py_get analysis "focus_visible" (PBool false);
    mret (if truthy focus_visible then Visible else Invisible)
  else
    idx ← py_get result "tab_index" (PStr "不明");
    mret (Skipped idx).

Definition is_visible (r : pyval) : bool :=
  match judge r with Ok Visible => true | _ => false end.
Definition is_invisible (r : pyval) : bool :=
  match judge r with Ok Invisible => true | _ => false end.
Definition is_skipped (r : pyval) : bool :=
  match judge r with Ok (Skipped _) => true | _ => false end.
Definition judged (r : pyval) : bool :=
  match judge r with Ok _ => true | Raise _ => false end.
Definition warning_of (r : pyval) : list event :=
  match judge r with Ok (Skipped idx) => [ResultIncomplete idx] | _ => [] end.

(** ** Entries by their shape *)

(** The entry is a dict without the analysis key. *)
Definition lacks_analysis (r : pyval) : bool :=
  match r with
  | PDict d => match dict_lookup "analysis" d with None => true | Some _ => false end
  | _ => false
  end.

(** The judgement an entry carries: it is a dict whose analysis is a dict;
    the value under focus_visible, or False when that key is absent. *)
Definition focus_visible_of (r : pyval) : option pyval :=
  match r with
  | PDict d =>
      match dict_lookup "analysis" d with
      | Some (PDict a) =>
          Some (match dict_lookup "focus_visible" a with
                | Some fv => fv
                | None => PBool false
                end)
      | _ => None
      end
  | _ => None
  end.

Definition well_formed (r : pyval) : bool :=
  match focus_visible_of r with Some _ => true | None => false end.

(** The judgement of the entry is present and true. *)
Definition judged_visible (r : pyval) : Prop :=
  exists fv, focus_visible_of r = Some fv /\ truthy fv = true.

(** ** The two halves of [process_focus_results] *)

(** The second half, from the collected list. *)
Definition aggregate (url : string) (all_analyzed_results : list pyval) (log : list event)
    : res final_report * list event :=
  match categorize all_analyzed_results [] [] log with
  | (Ok (visible, invisible), log') =>
      (Ok (make_report url all_analyzed_results visible invisible), log')
  | (Raise e, log') => (Raise e, log')
  end.

Section CollectionDefs.
Variable service : nat -> request -> service_outcome.
Variable json_loads : string -> option pyval.
Variables initial_screenshot url : string.

(** What each batch adds to [all_analyzed_results], from index [batch_idx]. *)
Fixpoint contributions (batch_idx : nat) (batches : list (list focus_record))
    : list (list pyval) :=
  match batches with
  | [] => []
  | batch :: rest =>
      fst (analyze_step service json_loads batch_idx batch initial_screenshot url)
      :: contributions (S batch_idx) rest
  end.

(** What is printed for each batch. *)
Fixpoint batch_logs (batch_idx : nat) (batches : list (list focus_record))
    : list (list event) :=
  match batches with
  | [] => []
  | batch :: rest =>
      snd (analyze_step service json_loads batch_idx batch initial_screenshot url)
      :: batch_logs (S batch_idx) rest
  end.

(** The first half: the list the aggregation loop runs over. *)
Definition collected (focus_results : list focus_record) : list pyval :=
  concat (contributions 0 (make_batches focus_results)).

End CollectionDefs.

(** The text handed to [json.loads] for a given answer. *)
Definition normalized (response_text : string) : string :=
  extract_json response_text (py_find response_text lbrace)
    (py_rfind response_text rbrace + 1).

(** The call of the service for a batch raises, or its answer has no opening
    brace, or the extracted text does not decode. *)
Definition call_fails (service : nat -> request -> service_outcome)
    (json_loads : string -> option pyval) (call : nat) (req : request) : Prop :=
  service call req = ClientRaises
  \/ service call req = RequestRaises
  \/ exists response_text,
       service call req = Response response_text
       /\ (py_find response_text lbrace = (-1)%Z
           \/ json_loads (normalized response_text) = None).

(** ** The passes of the Tab loop *)

Section TraversalDefs.
Variable browser : nat -> tab_outcome.

(** What pass [i] appends and adds to the seen set when it goes on. *)
Definition step_record (i : nat) : list focus_record :=
  match browser i with
  | Focused o =>
      match obs_after o with
      | Some after => [element_info i o after]
      | None => []
      end
  | DriverRaises => []
  end.

Definition step_signature (i : nat) : gset string :=
  match browser i with
  | Focused o => {[obs_signature o]}
  | DriverRaises => ∅
  end.

(** The records and the seen set after [k] passes that all went on. *)
Fixpoint records_upto (k : nat) : list focus_record :=
  match k with
  | 0 => []
  | S k' => records_upto k' ++ step_record k'
  end.

Fixpoint seen_upto (k : nat) : gset string :=
  match k with
  | 0 => ∅
  | S k' => step_signature k' ∪ seen_upto k'
  end.

(** Pass [i] focuses an element whose signature was not seen before, and
    both screenshots are taken. *)
Definition fresh_step (i : nat) : Prop :=
  exists o after,
    browser i = Focused o /\ obs_after o = Some after
    /\ obs_signature o ∉ seen_upto i.

End TraversalDefs.

(** Membership in a seen set written out as unions of singletons. *)
Ltac solve_seen :=
  unfold not;
  rewrite ?elem_of_union, ?elem_of_singleton, ?elem_of_empty;
  intuition congruence.

(** The signature of the element a record describes. *)
Definition record_signature (r : focus_record) : string :=
  element_signature (element_tag r) (element_id r) (element_class r) (element_xpath r).

(** The last character of a string. *)
Fixpoint last_char (s : string) : option ascii :=
  match s with
  | EmptyString => None
  | String c rest =>
      match last_char rest with
      | None => Some c
      | Some d => Some d
      end
  end.

(** Lines printed inside the loops over the elements of a report. *)
Definition is_element_line (l : line) : bool :=
  match l with
  | Usage | Started _ | ReportHeader _ _ _ _ _ | InvisibleSection | VisibleSection
  | RunError _ => false
  | _ => true
  end.

(** Every step of the two loop bodies prints element lines only. *)
Ltac element_lines_step :=
  let ls := fresh "ls" in
  let H := fresh "H" in
  intros ls H;
  unfold print_header, print_field, analysis_has in H;
  unfold mbind, res_bind, mret, res_ret in H;
  repeat (match type of H with
          | context [match ?x with _ => _ end] => destruct x
          end; cbv beta iota in H);
  try discriminate H; inversion H; subst;
  repeat constructor;
  try (apply Forall_forall; intros ? Hin; apply list_elem_of_fmap in Hin;
       destruct Hin as (? & -> & _); reflexivity).

(** The outcome of a call in the copy, as the main file meets it: there the
    request and the reading of its text are in one try block. *)
Definition outcome_in_main (o : Copy.service_outcome) : service_outcome :=
  match o with
  | Copy.ClientRaises => ClientRaises
  | Copy.CreateRaises => RequestRaises
  | Copy.TextRaises => RequestRaises
  | Copy.Response response_text => Response response_text
  end.

(** The way up from the node ends at a node that is not an element (the
    document), not at an element without parent. *)
Fixpoint in_document (e : located) : bool :=
  match e with
  | Root (Element _ _) => false
  | Root OtherNode => true
  | Child _ _ _ parent => in_document parent
  end.

(* ===================================================================== *)
(** * Concrete runs *)
(* ===================================================================== *)

(** ** Answers of the service *)

(** A decoder given by a table from answers to the value their JSON text
    decodes to; any other text does not decode. *)
Definition table_loads (table : list (string * pyval)) (json_str : string) : option pyval :=
  match List.find (fun e => String.eqb (normalized (fst e)) json_str) table with
  | Some e => Some (snd e)
  | None => None
  end.

Definition sample_record (i : nat) : focus_record :=
  {| tab_index := i;
     element_tag := "A";
     element_type := "";
     element_id := "";
     element_class := "nav-link";
     element_text := "Home";
     element_role := "";
     element_xpath := "/html/body/nav/a[1]";
     before_tab_screenshot := "iVBORw0KGgo=";
     after_tab_screenshot := "iVBORw0KGgp=" |}.

Definition entry (i : Z) (analysis : list (string * pyval)) : pyval :=
  PDict [("tab_index", PInt i); ("element_tag", PStr "A"); ("analysis", PDict analysis)].

Definition visible_entry (i : Z) : pyval :=
  entry i [("focus_visible", PBool true);
           ("focus_indicator_description", PStr "blue outline")].

Definition invisible_entry (i : Z) : pyval :=
  entry i [("focus_visible", PBool false);
           ("focus_indicator_description", PStr "no change")].

(** An analysis without the focus_visible key. *)
Definition unjudged_entry (i : Z) : pyval :=
  entry i [("focus_indicator_description", PStr "unclear")].

(** No analysis key at all. *)
Definition incomplete_entry (i : Z) : pyval :=
  PDict [("tab_index", PInt i); ("element_tag", PStr "A")].

Definition answer (elements : list pyval) : pyval := PDict [("elements", PList elements)].

Definition example_url : string := "http://example.org/".

(** One batch of two elements; the answer has one complete and one
    incomplete entry. *)
Definition mixed_text : string :=
  "Here is the analysis: {'elements': [{'tab_index': 0, 'element_tag': 'A', 'analysis': {'focus_visible': true, 'focus_indicator_description': 'blue outline'}}, {'tab_index': 1, 'element_tag': 'A'}]} Done.".
Definition mixed_loads : string -> option pyval :=
  table_loads [(mixed_text, answer [visible_entry 0; incomplete_entry 1])].
Definition mixed_service (call : nat) (req : request) : service_outcome :=
  Response mixed_text.
Definition mixed_records : list focus_record := [sample_record 0; sample_record 1].

(** An answer whose second entry has an analysis without focus_visible. *)
Definition unjudged_text : string :=
  "{'elements': [{'tab_index': 0, 'element_tag': 'A', 'analysis': {'focus_visible': true, 'focus_indicator_description': 'blue outline'}}, {'tab_index': 1, 'element_tag': 'A', 'analysis': {'focus_indicator_description': 'unclear'}}]}".
Definition unjudged_loads : string -> option pyval :=
  table_loads [(unjudged_text, answer [visible_entry 0; unjudged_entry 1])].
Definition unjudged_service (call : nat) (req : request) : service_outcome :=
  Response unjudged_text.

(** Seven records, hence batches of five and two.  The first answer judges
    its five elements visible. *)
Definition seven_records : list focus_record := map sample_record (seq 0 7).
Definition five_visible : list pyval :=
  [visible_entry 0; visible_entry 1; visible_entry 2; visible_entry 3; visible_entry 4].
Definition five_text : string :=
  "{'elements': [{'tab_index': 0, 'element_tag': 'A', 'analysis': {'focus_visible': true, 'focus_indicator_description': 'blue outline'}}, {'tab_index': 1, 'element_tag': 'A', 'analysis': {'focus_visible': true, 'focus_indicator_description': 'blue outline'}}, {'tab_index': 2, 'element_tag': 'A', 'analysis': {'focus_visible': true, 'focus_indicator_description': 'blue outline'}}, {'tab_index': 3, 'element_tag': 'A', 'analysis': {'focus_visible': true, 'focus_indicator_description': 'blue outline'}}, {'tab_index': 4, 'element_tag': 'A', 'analysis': {'focus_visible': true, 'focus_indicator_description': 'blue outline'}}]}".
Definition five_loads : string -> option pyval :=
  table_loads [(five_text, answer five_visible)].

(** The second call answers with prose that holds no JSON object. *)
Definition garbled_service (call : nat) (req : request) : service_outcome :=
  match call with
  | 0 => Response five_text
  | _ => Response "I am unable to compare these images."
  end.

(** The second call raises. *)
Definition failing_service (call : nat) (req : request) : service_outcome :=
  match call with
  | 0 => Response five_text
  | _ => RequestRaises
  end.

(** An answer that decodes, with an entry that is not a dict. *)
Definition ill_typed_text : string := "{'elements': [1]}".
Definition ill_typed_loads : string -> option pyval :=
  table_loads [(ill_typed_text, answer [PInt 1])].
Definition ill_typed_service (call : nat) (req : request) : service_outcome :=
  Response ill_typed_text.

(** The service is down: every call raises. *)
Definition down_service (call : nat) (req : request) : service_outcome := RequestRaises.

(** An answer whose elements value is a string. *)
Definition stringly_text : string := "{'elements': 'none'}".
Definition stringly_loads : string -> option pyval :=
  table_loads [(stringly_text, PDict [("elements", PStr "none")])].
Definition stringly_service (call : nat) (req : request) : service_outcome :=
  Response stringly_text.

(** An answer whose judgement is the string false. *)
Definition quoted_entry : pyval := entry 0 [("focus_visible", PStr "false")].
Definition quoted_text : string :=
  "{'elements': [{'tab_index': 0, 'element_tag': 'A', 'analysis': {'focus_visible': 'false'}}]}".
Definition quoted_loads : string -> option pyval :=
  table_loads [(quoted_text, answer [quoted_entry])].
Definition quoted_service (call : nat) (req : request) : service_outcome :=
  Response quoted_text.

(** ** Pages *)

(** A page with three links; focus wraps after the third. *)
Definition link_obs (id : string) : tab_obs :=
  {| obs_before := "iVBORw0KGgo=";
     obs_tag := "A";
     obs_type := "";
     obs_id := id;
     obs_class := "nav-link";
     obs_text := id;
     obs_role := "";
     obs_xpath := XPath ("//*[@id=" +:+ String dquote id +:+ String dquote "]");
     obs_after := Some "iVBORw0KGgp=" |}.

Definition abc_browser (i : nat) : tab_outcome :=
  match i mod 3 with
  | 0 => Focused (link_obs "home")
  | 1 => Focused (link_obs "about")
  | _ => Focused (link_obs "contact")
  end.

Definition abc_records : list focus_record :=
  [element_info 0 (link_obs "home") "iVBORw0KGgp=";
   element_info 1 (link_obs "about") "iVBORw0KGgp=";
   element_info 2 (link_obs "contact") "iVBORw0KGgp="].

(** A page on which every Tab reaches an element with a new id. *)
Definition counting_browser (i : nat) : tab_outcome :=
  Focused (link_obs ("item-" +:+ pretty i)).

(** ** Machines *)

Definition empty_os : os_state := {| temp_dirs := ∅; sessions := ∅ |}.

(** A run on a machine where Chrome does not start. *)
Definition no_chrome_world : world :=
  {| mkdtemp := "/tmp/tmpk3x9a2vq";
     chrome := None;
     page_ready := true;
     initial_shot := "iVBORw0KGgo=";
     browser := abc_browser;
     service := failing_service;
     json_loads := five_loads;
     quit_raises := false;
     rmtree_removes := true |}.

(** The driver fails during the third pass. *)
Definition crashing_browser (i : nat) : tab_outcome :=
  match i with
  | 0 => Focused (link_obs "home")
  | 1 => Focused (link_obs "about")
  | _ => DriverRaises
  end.

(** Elements without id for which [generate_xpath] raises. *)
Definition unlocated_obs (cls : string) : tab_obs :=
  {| obs_before := "iVBORw0KGgo=";
     obs_tag := "BUTTON";
     obs_type := "submit";
     obs_id := "";
     obs_class := cls;
     obs_text := "Send";
     obs_role := "";
     obs_xpath := XPathRaises;
     obs_after := Some "iVBORw0KGgp=" |}.

Definition unlocated_browser (i : nat) : tab_outcome :=
  Focused (unlocated_obs "btn").

(** A machine on which everything works; the page has three links and the
    service judges them visible. *)
Definition three_text : string :=
  "{'elements': [{'tab_index': 0, 'element_tag': 'A', 'analysis': {'focus_visible': true, 'focus_indicator_description': 'blue outline'}}, {'tab_index': 1, 'element_tag': 'A', 'analysis': {'focus_visible': true, 'focus_indicator_description': 'blue outline'}}, {'tab_index': 2, 'element_tag': 'A', 'analysis': {'focus_visible': true, 'focus_indicator_description': 'blue outline'}}]}".
Definition three_visible : list pyval := [visible_entry 0; visible_entry 1; visible_entry 2].

Definition healthy_world : world :=
  {| mkdtemp := "/tmp/tmpk3x9a2vq";
     chrome := Some 4711;
     page_ready := true;
     initial_shot := "iVBORw0KGgo=";
     browser := abc_browser;
     service := fun _ _ => Response three_text;
     json_loads := table_loads [(three_text, answer three_visible)];
     quit_raises := false;
     rmtree_removes := true |}.

(** The same machine, but [driver.quit()] raises. *)
Definition stuck_quit_world : world :=
  {| mkdtemp := "/tmp/tmpk3x9a2vq";
     chrome := Some 4711;
     page_ready := true;
     initial_shot := "iVBORw0KGgo=";
     browser := abc_browser;
     service := fun _ _ => Response three_text;
     json_loads := table_loads [(three_text, answer three_visible)];
     quit_raises := true;
     rmtree_removes := true |}.

(** A machine like the healthy one on which the service judges the second
    link invisible. *)
Definition second_invisible_text : string :=
  "{'elements': [{'tab_index': 0, 'element_tag': 'A', 'analysis': {'focus_visible': true, 'focus_indicator_description': 'blue outline'}}, {'tab_index': 1, 'element_tag': 'A', 'analysis': {'focus_visible': false, 'focus_indicator_description': 'no change'}}]}".

Definition failing_page_world : world :=
  {| mkdtemp := "/tmp/tmpk3x9a2vq";
     chrome := Some 4711;
     page_ready := true;
     initial_shot := "iVBORw0KGgo=";
     browser := abc_browser;
     service := fun _ _ => Response second_invisible_text;
     json_loads :=
       table_loads [(second_invisible_text, answer [visible_entry 0; invisible_entry 1])];
     quit_raises := false;
     rmtree_removes := true |}.

(** In the copy: the first call answers, the second request raises. *)
Definition copy_failing_service (call : nat) (req : request) : Copy.service_outcome :=
  match call with
  | 0 => Copy.Response five_text
  | _ => Copy.CreateRaises
  end.

(** In the copy: every call answers with the three visible links. *)
Definition copy_three_service (call : nat) (req : request) : Copy.service_outcome :=
  Copy.Response three_text.

(** ** Documents *)

(** A document whose body holds a navigation bar with two links, with text
    nodes between the elements. *)
Definition page_document : located := Root OtherNode.
Definition page_html : located := Child (Element "HTML" "") false [] page_document.
Definition page_body : located :=
  Child (Element "BODY" "") true [Element "HEAD" ""; OtherNode] page_html.
Definition page_nav : located := Child (Element "NAV" "") false [OtherNode] page_body.
Definition page_link1 : located := Child (Element "A" "") false [OtherNode] page_nav.
Definition page_link2 : located :=
  Child (Element "A" "") false [OtherNode; Element "A" ""; OtherNode] page_nav.

(** Two buttons with the same id at different places of the page. *)
Definition twin_obs (e : located) : tab_obs :=
  {| obs_before := "iVBORw0KGgo=";
     obs_tag := "BUTTON";
     obs_type := "button";
     obs_id := "save";
     obs_class := "btn";
     obs_text := "Save";
     obs_role := "";
     obs_xpath := generate_xpath e;
     obs_after := Some "iVBORw0KGgp=" |}.
Definition twin1 : located := Child (Element "BUTTON" "save") false [] page_nav.
Definition twin2 : located :=
  Child (Element "BUTTON" "save") false [OtherNode; Element "DIV" ""] page_body.
Definition twin_browser (i : nat) : tab_outcome :=
  match i with
  | 0 => Focused (twin_obs twin1)
  | _ => Focused (twin_obs twin2)
  end.

(* ===================================================================== *)
(** * Properties *)
(* ===================================================================== *)

(** ** C4: batch partitioning *)

Lemma py_range_0_5 n :
  py_range 0 n batch_size = map (fun k => k * batch_size) (seq 0 (ceil_div n batch_size)).
Proof.
  unfold py_range, ceil_div, batch_size.
  destruct (Nat.ltb_spec 0 n) as [Hn | Hn].
  - replace (1 + (n - 1 - 0) / 5) with ((n + (5 - 1)) / 5); [reflexivity |].
    rewrite Nat.sub_0_r.
    replace (n + (5 - 1)) with ((n - 1) + 1 * 5) by lia.
    rewrite Nat.div_add by lia. lia.
  - replace n with 0 by lia. reflexivity.
Qed.

Lemma make_batches_unfold {A} (l : list A) :
  make_batches l =
  map (fun k => take batch_size (drop (k * batch_size) l)) (seq 0 (ceil_div (length l) batch_size)).
Proof.
  unfold make_batches. rewrite py_range_0_5, map_map.
  apply map_ext. intros k. unfold py_slice. f_equal. lia.
Qed.

Lemma concat_chunks {A} (l : list A) k :
  concat (map (fun k => take batch_size (drop (k * batch_size) l)) (seq 0 k))
  = take (k * batch_size) l.
Proof.
  induction k as [| k IH].
  - reflexivity.
  - rewrite seq_S, map_app, concat_app, IH. cbn [map concat Nat.add].
    rewrite app_nil_r, take_take_drop. f_equal. unfold batch_size. lia.
Qed.

Lemma ceil_div_5_bounds n :
  n <= ceil_div n batch_size * batch_size < n + batch_size.
Proof.
  unfold ceil_div, batch_size.
  pose proof (Nat.div_mod_eq (n + (5 - 1)) 5) as E.
  pose proof (Nat.mod_upper_bound (n + (5 - 1)) 5) as B.
  lia.
Qed.

Lemma make_batches_lookup {A} (l : list A) k :
  k < ceil_div (length l) batch_size ->
  make_batches l !! k = Some (take batch_size (drop (k * batch_size) l)).
Proof.
  intros Hk. rewrite make_batches_unfold, list_lookup_fmap.
  rewrite lookup_seq_lt by exact Hk. reflexivity.
Qed.

Example make_batches_12 :
  make_batches (seq 0 12) = [[0; 1; 2; 3; 4]; [5; 6; 7; 8; 9]; [10; 11]].
Proof. reflexivity. Qed.

Example make_batches_10 :
  make_batches (seq 0 10) = [[0; 1; 2; 3; 4]; [5; 6; 7; 8; 9]].
Proof. reflexivity. Qed.

Example make_batches_0 : make_batches (@nil nat) = [].
Proof. reflexivity. Qed.

(** C4. Partitioning a sequence of length N gives ceil(N/5) batches; batch k
    is the slice of five records starting at position 5k, so the batches are
    contiguous, disjoint and in order; the first floor(N/5) have exactly five
    records and the last one between one and five; their concatenation is
    the input. *)
Theorem make_batches_partition {A} (focus_results : list A) :
  let N := length focus_results in
  let batches := make_batches focus_results in
  length batches = ceil_div N 5
  /\ N <= ceil_div N 5 * 5 < N + 5
  /\ concat batches = focus_results
  /\ (forall k, k < length batches ->
        batches !! k = Some (take 5 (drop (k * 5) focus_results)))
  /\ (forall k b, k < N / 5 -> batches !! k = Some b -> length b = 5)
  /\ (forall b, last batches = Some b -> 1 <= length b <= 5).
Proof.
  intros N batches.
  assert (Hlen : length batches = ceil_div N 5).
  { unfold batches. rewrite make_batches_unfold, length_map, length_seq. reflexivity. }
  pose proof (ceil_div_5_bounds N) as Hb. unfold batch_size in Hb.
  split; [exact Hlen |]. split; [exact Hb |].
  split.
  { unfold batches. rewrite make_batches_unfold, concat_chunks.
    apply take_ge. unfold batch_size. fold N. lia. }
  split.
  { intros k Hk. apply (make_batches_lookup focus_results k).
    unfold batch_size. fold N. lia. }
  split.
  { intros k b Hk Hb'.
    pose proof (Nat.div_mod_eq N 5) as E.
    assert (Hk' : k < ceil_div N 5) by (unfold ceil_div in *; nia).
    unfold batches in Hb'.
    rewrite (make_batches_lookup focus_results k) in Hb' by exact Hk'.
    inversion Hb'; subst b. rewrite length_take, length_drop.
    unfold batch_size. fold N. lia. }
  intros b Hlast. rewrite last_lookup in Hlast.
  pose proof (lookup_lt_Some _ _ _ Hlast) as Hlt.
  assert (Hm : Nat.pred (length batches) < ceil_div (length focus_results) batch_size).
  { unfold batch_size. fold N. lia. }
  unfold batches in Hlast at 2.
  rewrite (make_batches_lookup focus_results _ Hm) in Hlast.
  inversion Hlast; subst b. rewrite length_take, length_drop.
  unfold batch_size. fold N. lia.
Qed.

(** ** The aggregation loop, entry by entry *)

Lemma categorize_cons result rest visible invisible log :
  categorize (result :: rest) visible invisible log =
  match judge result with
  | Raise e => (Raise e, log)
  | Ok Visible => categorize rest (visible ++ [result]) invisible log
  | Ok Invisible => categorize rest visible (invisible ++ [result]) log
  | Ok (Skipped idx) => categorize rest visible invisible (log ++ [ResultIncomplete idx])
  end.
Proof.
  unfold judge. cbn [categorize].
  destruct (py_in "analysis" result) as [[|] | e]; cbn; try reflexivity.
  - destruct (py_getitem result "analysis") as [a | e]; cbn; [| reflexivity].
    destruct (py_get a "focus_visible" (PBool false)) as [fv | e]; cbn; [| reflexivity].
    destruct (truthy fv); reflexivity.
  - destruct (py_get result "tab_index" (PStr "不明")); reflexivity.
Qed.

Lemma categorize_judged results : forall visible invisible log,
  Forall (fun r => judged r = true) results ->
  categorize results visible invisible log =
  (Ok (visible ++ List.filter is_visible results,
       invisible ++ List.filter is_invisible results),
   log ++ flat_map warning_of results).
Proof.
  induction results as [| r rest IH]; intros visible invisible log Hall.
  - cbn. rewrite !app_nil_r. reflexivity.
  - inversion Hall as [| ? ? Hr Hrest]; subst.
    rewrite categorize_cons. cbn [flat_map List.filter].
    unfold judged in Hr. unfold is_visible at 1, is_invisible at 1, warning_of at 1.
    destruct (judge r) as [[| | idx] | e]; [| | | discriminate Hr];
      rewrite IH by exact Hrest; cbn [app];
      rewrite <- ?app_assoc; reflexivity.
Qed.

Lemma categorize_Ok_judged results : forall visible invisible log v i lg,
  categorize results visible invisible log = (Ok (v, i), lg) ->
  Forall (fun r => judged r = true) results.
Proof.
  induction results as [| r rest IH]; intros visible invisible log v i lg H.
  - constructor.
  - rewrite categorize_cons in H. unfold judged at 1.
    destruct (judge r) as [[| | idx] | e] eqn:Ej; [| | | discriminate H];
      (constructor; [unfold judged; rewrite Ej; reflexivity | eapply IH; exact H]).
Qed.

Lemma verdict_count results :
  Forall (fun r => judged r = true) results ->
  length results =
  length (List.filter is_visible results)
  + length (List.filter is_invisible results)
  + length (List.filter is_skipped results).
Proof.
  induction 1 as [| r rest Hr _ IH]; [reflexivity |].
  cbn [List.filter]. unfold judged in Hr.
  unfold is_visible at 1, is_invisible at 1, is_skipped at 1.
  destruct (judge r) as [[| | idx] | e]; [| | | discriminate Hr];
    cbn [length]; rewrite IH; lia.
Qed.

(** An entry is skipped exactly when it is a dict without the key. *)
Lemma is_skipped_lacks_analysis r : is_skipped r = lacks_analysis r.
Proof.
  unfold is_skipped, judge.
  destruct r as [| b | z | f | s | l | d]; cbn; try reflexivity.
  - destruct (str_contains "analysis" s); reflexivity.
  - destruct (existsb (is_str "analysis") l); reflexivity.
  - destruct (dict_lookup "analysis" d) as [a |]; cbn; [| reflexivity].
    destruct (py_get a "focus_visible" (PBool false)) as [fv |]; cbn; [| reflexivity].
    destruct (truthy fv); reflexivity.
Qed.

(** ** The collection loop, batch by batch *)

Section Collection.
Variable service : nat -> request -> service_outcome.
Variable json_loads : string -> option pyval.
Variables initial_screenshot url : string.

Local Abbreviation contribs := (contributions service json_loads initial_screenshot url).
Local Abbreviation logs := (batch_logs service json_loads initial_screenshot url).

Lemma analyze_batches_spec batches : forall batch_idx all log,
  analyze_batches service json_loads batch_idx batches initial_screenshot url all log
  = (all ++ concat (contribs batch_idx batches),
     log ++ concat (logs batch_idx batches)).
Proof.
  induction batches as [| batch rest IH]; intros batch_idx all log.
  - cbn. rewrite !app_nil_r. reflexivity.
  - cbn [analyze_batches contributions batch_logs concat].
    destruct (analyze_step service json_loads batch_idx batch initial_screenshot url)
      as [items l].
    rewrite IH. cbn [fst snd]. rewrite <- !app_assoc. reflexivity.
Qed.

Lemma contributions_app pre post : forall batch_idx,
  contribs batch_idx (pre ++ post)
  = contribs batch_idx pre ++ contribs (batch_idx + length pre) post.
Proof.
  induction pre as [| b pre IH]; intros batch_idx.
  - cbn. rewrite Nat.add_0_r. reflexivity.
  - cbn [app contributions length]. rewrite IH. do 3 f_equal. lia.
Qed.

Lemma process_focus_results_spec focus_results :
  process_focus_results service json_loads focus_results initial_screenshot url
  = aggregate url (collected service json_loads initial_screenshot url focus_results)
      (concat (logs 0 (make_batches focus_results))).
Proof.
  unfold process_focus_results, aggregate, collected.
  rewrite analyze_batches_spec. cbn [app]. reflexivity.
Qed.

End Collection.

Lemma aggregate_Ok url all log rep log' :
  aggregate url all log = (Ok rep, log') ->
  Forall (fun r => judged r = true) all
  /\ rep = make_report url all (List.filter is_visible all) (List.filter is_invisible all)
  /\ log' = log ++ flat_map warning_of all.
Proof.
  unfold aggregate. intros H.
  destruct (categorize all [] [] log) as [[[v i] | e] lg] eqn:Ec; [| discriminate H].
  pose proof (categorize_Ok_judged _ _ _ _ _ _ _ Ec) as Hj.
  rewrite (categorize_judged _ _ _ _ Hj) in Ec. cbn [app] in Ec.
  inversion Ec; subst. inversion H; subst. auto.
Qed.

Lemma aggregate_judged url all log :
  Forall (fun r => judged r = true) all ->
  aggregate url all log
  = (Ok (make_report url all (List.filter is_visible all) (List.filter is_invisible all)),
     log ++ flat_map warning_of all).
Proof.
  intros Hj. unfold aggregate. rewrite (categorize_judged _ _ _ _ Hj). reflexivity.
Qed.

(** ** Entries by their shape *)

Lemma judge_well_formed r fv :
  focus_visible_of r = Some fv ->
  judge r = Ok (if truthy fv then Visible else Invisible).
Proof.
  unfold focus_visible_of, judge. intros H.
  destruct r as [| | | | | | d]; try discriminate H. cbn.
  destruct (dict_lookup "analysis" d) as [[| | | | | | a] |]; try discriminate H.
  cbn. inversion H; subst. reflexivity.
Qed.

Lemma judge_lacks_analysis r :
  lacks_analysis r = true -> exists idx, judge r = Ok (Skipped idx).
Proof.
  rewrite <- is_skipped_lacks_analysis. unfold is_skipped.
  destruct (judge r) as [[| | idx] | e]; try discriminate. eauto.
Qed.

Lemma is_visible_spec r :
  is_visible r = match focus_visible_of r with Some fv => truthy fv | None => false end.
Proof.
  destruct (focus_visible_of r) as [fv |] eqn:E.
  - unfold is_visible. rewrite (judge_well_formed _ _ E). destruct (truthy fv); reflexivity.
  - unfold is_visible, judge, focus_visible_of in *.
    destruct r as [| b | z | f | s | l | d]; cbn; try reflexivity.
    + destruct (str_contains "analysis" s); reflexivity.
    + destruct (existsb (is_str "analysis") l); reflexivity.
    + destruct (dict_lookup "analysis" d) as [[| | | | | | a] |]; cbn;
        try reflexivity; discriminate E.
Qed.

Lemma is_invisible_spec r :
  is_invisible r
  = match focus_visible_of r with Some fv => negb (truthy fv) | None => false end.
Proof.
  destruct (focus_visible_of r) as [fv |] eqn:E.
  - unfold is_invisible. rewrite (judge_well_formed _ _ E). destruct (truthy fv); reflexivity.
  - unfold is_invisible, judge, focus_visible_of in *.
    destruct r as [| b | z | f | s | l | d]; cbn; try reflexivity.
    + destruct (str_contains "analysis" s); reflexivity.
    + destruct (existsb (is_str "analysis") l); reflexivity.
    + destruct (dict_lookup "analysis" d) as [[| | | | | | a] |]; cbn;
        try reflexivity; discriminate E.
Qed.

Lemma well_formed_judged r : well_formed r = true -> judged r = true.
Proof.
  unfold well_formed, judged. destruct (focus_visible_of r) as [fv |] eqn:E; [| discriminate].
  rewrite (judge_well_formed _ _ E). reflexivity.
Qed.

Lemma lacks_analysis_judged r : lacks_analysis r = true -> judged r = true.
Proof.
  intros H. destruct (judge_lacks_analysis _ H) as [idx E].
  unfold judged. rewrite E. reflexivity.
Qed.

Lemma lacks_analysis_not_classified r :
  lacks_analysis r = true -> is_visible r = false /\ is_invisible r = false.
Proof.
  intros H. destruct (judge_lacks_analysis _ H) as [idx E].
  unfold is_visible, is_invisible. rewrite E. auto.
Qed.

Lemma filter_length_0 {A} (p : A -> bool) l :
  length (List.filter p l) = 0 <-> Forall (fun x => p x = false) l.
Proof.
  induction l as [| x l IH]; cbn.
  - split; [constructor | reflexivity].
  - destruct (p x) eqn:E; cbn.
    + split; [lia | intros H; inversion H; congruence].
    + rewrite IH. split; [intros H; constructor; assumption | intros H; inversion H; assumption].
Qed.

Lemma filter_In_false {A} (p : A -> bool) l x :
  p x = false -> ~ In x (List.filter p l).
Proof. intros Hp Hin. apply filter_In in Hin. destruct Hin. congruence. Qed.

(** ** C1: the total against the two counts *)

(** C1, as stated, fails: an answer with one complete and one incomplete
    entry gives a report with total 2, visible 1 and invisible 0. *)
Lemma report_total_counterexample :
  exists rep log,
    process_focus_results mixed_service mixed_loads mixed_records "" example_url
    = (Ok rep, log)
    /\ total_focusable_elements rep = 2
    /\ visible_focus_elements rep = 1
    /\ invisible_focus_elements rep = 0
    /\ total_focusable_elements rep
       <> visible_focus_elements rep + invisible_focus_elements rep.
Proof.
  eexists _, _. split; [vm_compute; reflexivity |].
  cbn. repeat split; try reflexivity. discriminate.
Qed.

(** C1, amended.  In every report the total is the visible count plus the
    invisible count plus the number of collected entries that lack the
    analysis key; the total equals the sum of the two counts exactly when no
    collected entry lacks the key; the counts are the lengths of the two
    lists of the report. *)
Theorem report_total_count service json_loads focus_results initial_screenshot url rep log :
  process_focus_results service json_loads focus_results initial_screenshot url
  = (Ok rep, log) ->
  let all := collected service json_loads initial_screenshot url focus_results in
  total_focusable_elements rep = length all
  /\ total_focusable_elements rep
     = visible_focus_elements rep + invisible_focus_elements rep
       + length (List.filter lacks_analysis all)
  /\ (total_focusable_elements rep
      = visible_focus_elements rep + invisible_focus_elements rep
      <-> Forall (fun r => lacks_analysis r = false) all)
  /\ visible_focus_elements rep = length (visible_elements rep)
  /\ invisible_focus_elements rep = length (invisible_elements rep).
Proof.
  intros H all. rewrite process_focus_results_spec in H. fold all in H.
  apply aggregate_Ok in H. destruct H as (Hj & -> & _).
  cbn [total_focusable_elements visible_focus_elements invisible_focus_elements
       visible_elements invisible_elements make_report].
  pose proof (verdict_count all Hj) as Hc.
  rewrite (filter_ext is_skipped lacks_analysis is_skipped_lacks_analysis) in Hc.
  repeat split; try reflexivity; try exact Hc.
  - intros E. apply filter_length_0. lia.
  - intros E. apply filter_length_0 in E. lia.
Qed.

Lemma report_total_count_witness :
  process_focus_results mixed_service mixed_loads mixed_records "" example_url
  = (Ok (make_report example_url [visible_entry 0; incomplete_entry 1] [visible_entry 0] []),
     [AnalysisDone 2; ResultIncomplete (PInt 1)])
  /\ 2 = 1 + 0 + length (List.filter lacks_analysis
                           (collected mixed_service mixed_loads "" example_url mixed_records)).
Proof.
  assert (H : process_focus_results mixed_service mixed_loads mixed_records "" example_url
              = (Ok (make_report example_url [visible_entry 0; incomplete_entry 1]
                       [visible_entry 0] []),
                 [AnalysisDone 2; ResultIncomplete (PInt 1)]))
    by (vm_compute; reflexivity).
  split; [exact H |].
  exact (proj1 (proj2 (report_total_count _ _ _ _ _ _ _ H))).
Defined.

(** ** C6: an entry without the analysis key, next to a complete one *)

(** C6. When the decoded answer of the only batch holds one well-formed
    entry and one entry without the analysis key, in either order, a report
    is produced whose visible and invisible lists together hold exactly one
    entry, the well-formed one, placed as its own judgement says; the
    incomplete entry is in neither list.  (The total of the report counts
    both collected entries.) *)
Theorem field_incomplete_element_dropped service json_loads focus_results batch
    initial_screenshot url good bad results l :
  make_batches focus_results = [batch] ->
  analyze_focus_batch service json_loads 0 batch initial_screenshot url
  = (Ok (Some (PList results)), l) ->
  well_formed good = true ->
  lacks_analysis bad = true ->
  results = [good; bad] \/ results = [bad; good] ->
  exists rep log,
    process_focus_results service json_loads focus_results initial_screenshot url
    = (Ok rep, log)
    /\ visible_elements rep ++ invisible_elements rep = [good]
    /\ visible_focus_elements rep + invisible_focus_elements rep = 1
    /\ visible_elements rep = (if is_visible good then [good] else [])
    /\ invisible_elements rep = (if is_visible good then [] else [good])
    /\ ~ In bad (visible_elements rep)
    /\ ~ In bad (invisible_elements rep)
    /\ total_focusable_elements rep = 2.
Proof.
  intros Hb Ha Hg Hbad Hres.
  assert (Hall : collected service json_loads initial_screenshot url focus_results = results).
  { unfold collected. rewrite Hb. cbn [contributions concat]. unfold analyze_step.
    rewrite Ha. destruct Hres; subst results; cbn; reflexivity. }
  assert (Hj : Forall (fun r => judged r = true) results).
  { pose proof (well_formed_judged _ Hg). pose proof (lacks_analysis_judged _ Hbad).
    destruct Hres; subst results; repeat constructor; assumption. }
  rewrite process_focus_results_spec, Hall, (aggregate_judged _ _ _ Hj).
  eexists _, _. split; [reflexivity |].
  cbn [visible_elements invisible_elements visible_focus_elements
       invisible_focus_elements total_focusable_elements make_report].
  destruct (lacks_analysis_not_classified _ Hbad) as [Hbv Hbi].
  assert (Hgi : is_invisible good = negb (is_visible good)).
  { rewrite is_invisible_spec, is_visible_spec. unfold well_formed in Hg.
    destruct (focus_visible_of good); [reflexivity | discriminate Hg]. }
  assert (Hne : good <> bad).
  { intros ->. rewrite Hbv in Hgi. rewrite Hbi in Hgi. discriminate Hgi. }
  destruct Hres; subst results; cbn [List.filter];
    rewrite Hbv, Hbi, Hgi; destruct (is_visible good); cbn;
    refine (conj _ (conj _ (conj _ (conj _ (conj _ (conj _ _)))))); try reflexivity;
    intros HI; cbn in HI; first [exact HI | destruct HI as [E | F]; [exact (Hne E) | exact F]].
Qed.

Lemma field_incomplete_element_dropped_witness :
  exists rep log,
    process_focus_results mixed_service mixed_loads mixed_records "" example_url
    = (Ok rep, log)
    /\ visible_elements rep ++ invisible_elements rep = [visible_entry 0]
    /\ visible_focus_elements rep + invisible_focus_elements rep = 1
    /\ visible_elements rep = (if is_visible (visible_entry 0) then [visible_entry 0] else [])
    /\ invisible_elements rep = (if is_visible (visible_entry 0) then [] else [visible_entry 0])
    /\ ~ In (incomplete_entry 1) (visible_elements rep)
    /\ ~ In (incomplete_entry 1) (invisible_elements rep)
    /\ total_focusable_elements rep = 2.
Proof.
  apply (field_incomplete_element_dropped mixed_service mixed_loads mixed_records
           mixed_records "" example_url (visible_entry 0) (incomplete_entry 1)
           [visible_entry 0; incomplete_entry 1] [AnalysisDone 2]).
  - reflexivity.
  - vm_compute. reflexivity.
  - reflexivity.
  - reflexivity.
  - left. reflexivity.
Defined.

(** ** C10: an analysis without the judgement *)

(** C10. An entry whose analysis is a dict in which focus_visible is absent
    or falsy is judged invisible by the loop body, without an exception; in
    every report over a collected list containing it, it stands in the
    invisible list at its place among the invisible entries, not in the
    visible list, the invisible count is one more than that of the other
    entries, and the report is not compliant. *)
Theorem missing_judgement_is_invisible service json_loads focus_results
    initial_screenshot url rep log pre e post d a :
  process_focus_results service json_loads focus_results initial_screenshot url
  = (Ok rep, log) ->
  collected service json_loads initial_screenshot url focus_results = pre ++ e :: post ->
  e = PDict d ->
  dict_lookup "analysis" d = Some (PDict a) ->
  match dict_lookup "focus_visible" a with
  | Some fv => truthy fv = false
  | None => True
  end ->
  judge e = Ok Invisible
  /\ invisible_elements rep
     = List.filter is_invisible pre ++ e :: List.filter is_invisible post
  /\ ~ In e (visible_elements rep)
  /\ invisible_focus_elements rep
     = S (length (List.filter is_invisible (pre ++ post)))
  /\ wcag_2_4_7_compliant rep = false.
Proof.
  intros H Hall -> Ha Hfv.
  assert (Hj : judge (PDict d) = Ok Invisible).
  { unfold judge. cbn. rewrite Ha. cbn.
    destruct (dict_lookup "focus_visible" a) as [fv |]; [rewrite Hfv |]; reflexivity. }
  assert (Hi : is_invisible (PDict d) = true) by (unfold is_invisible; rewrite Hj; reflexivity).
  assert (Hv : is_visible (PDict d) = false) by (unfold is_visible; rewrite Hj; reflexivity).
  rewrite process_focus_results_spec, Hall in H.
  apply aggregate_Ok in H. destruct H as (_ & -> & _).
  cbn [visible_elements invisible_elements invisible_focus_elements
       wcag_2_4_7_compliant make_report].
  rewrite !List.filter_app. cbn [List.filter]. rewrite Hi, Hv.
  rewrite <- List.filter_app.
  refine (conj Hj (conj eq_refl (conj _ (conj _ _)))).
  - apply filter_In_false. exact Hv.
  - rewrite !length_app. cbn [length]. lia.
  - rewrite length_app. cbn [length]. rewrite Nat.add_succ_r. reflexivity.
Qed.

Lemma missing_judgement_is_invisible_witness :
  judge (unjudged_entry 1) = Ok Invisible
  /\ invisible_elements
       (make_report example_url [visible_entry 0; unjudged_entry 1]
          [visible_entry 0] [unjudged_entry 1])
     = List.filter is_invisible [visible_entry 0] ++ unjudged_entry 1 :: List.filter is_invisible []
  /\ ~ In (unjudged_entry 1)
         (visible_elements
            (make_report example_url [visible_entry 0; unjudged_entry 1]
               [visible_entry 0] [unjudged_entry 1]))
  /\ invisible_focus_elements
       (make_report example_url [visible_entry 0; unjudged_entry 1]
          [visible_entry 0] [unjudged_entry 1])
     = S (length (List.filter is_invisible ([visible_entry 0] ++ [])))
  /\ wcag_2_4_7_compliant
       (make_report example_url [visible_entry 0; unjudged_entry 1]
          [visible_entry 0] [unjudged_entry 1]) = false.
Proof.
  apply (missing_judgement_is_invisible unjudged_service unjudged_loads mixed_records
           "" example_url _ [AnalysisDone 2] [visible_entry 0] (unjudged_entry 1) []
           [("tab_index", PInt 1); ("element_tag", PStr "A");
            ("analysis", PDict [("focus_indicator_description", PStr "unclear")])]
           [("focus_indicator_description", PStr "unclear")]).
  - vm_compute. reflexivity.
  - vm_compute. reflexivity.
  - reflexivity.
  - reflexivity.
  - exact I.
Defined.

(** In the older copy the same entry ends the loop with KeyError; a falsy
    judgement is counted invisible there too. *)
Lemma copy_missing_judgement_raises :
  Copy.categorize [visible_entry 0; unjudged_entry 1] [] [] = Raise KeyError
  /\ Copy.categorize [visible_entry 0; invisible_entry 1] [] []
     = Ok ([visible_entry 0], [invisible_entry 1]).
Proof. split; reflexivity. Qed.

(** ** C2, C7: what a batch contributes *)

Lemma analyze_step_fails service json_loads k batch initial_screenshot url :
  call_fails service json_loads k (build_request batch url) ->
  exists l,
    analyze_step service json_loads k batch initial_screenshot url = ([], l)
    /\ (In (BatchSkipped (k + 1)) l \/ In (BatchFailed (k + 1)) l).
Proof.
  unfold call_fails, analyze_step, analyze_focus_batch.
  intros [E | [E | (text & E & Hbad)]]; rewrite E.
  - eexists. split; [reflexivity |]. right. cbn. auto.
  - eexists. split; [reflexivity |]. left. cbn. auto.
  - unfold parse_response.
    destruct Hbad as [Hf | Hd].
    + rewrite Hf. cbn. eexists. split; [reflexivity |]. left. cbn. auto.
    + destruct (negb (py_find text lbrace =? -1)%Z
                && negb (py_rfind text rbrace + 1 =? -1)%Z).
      * unfold normalized in Hd. rewrite Hd.
        eexists. split; [reflexivity |]. left. cbn. auto.
      * eexists. split; [reflexivity |]. left. cbn. auto.
Qed.

Lemma categorize_log results : forall visible invisible log log',
  fst (categorize results visible invisible log)
  = fst (categorize results visible invisible log').
Proof.
  induction results as [| r rest IH]; intros visible invisible log log'.
  - reflexivity.
  - rewrite !categorize_cons.
    destruct (judge r) as [[| | idx] | e]; try apply IH. reflexivity.
Qed.

Lemma aggregate_log url all log log' :
  fst (aggregate url all log) = fst (aggregate url all log').
Proof.
  unfold aggregate. pose proof (categorize_log all [] [] log log') as H.
  destruct (categorize all [] [] log) as [[[v i] | e] lg];
    destruct (categorize all [] [] log') as [[[v' i'] | e'] lg'];
    cbn in H |- *; congruence.
Qed.

Example parse_response_prose :
  parse_response mixed_loads "I am unable to compare these images." = (None, [NoJsonFound]).
Proof. reflexivity. Qed.

(** Without a closing brace the slice is empty, and the empty text does not
    decode. *)
Example parse_response_unclosed :
  py_rfind "{ 'elements': [" rbrace = (-1)%Z
  /\ normalized "{ 'elements': [" = ""
  /\ parse_response mixed_loads "{ 'elements': [" = (None, [JsonDecodeFailed]).
Proof. repeat split; vm_compute; reflexivity. Qed.

(** An answer that does decode can still end the run: an entry that is not
    a dict makes the aggregation loop raise. *)
Lemma ill_typed_entry_raises :
  process_focus_results ill_typed_service ill_typed_loads mixed_records "" example_url
  = (Raise TypeError, [AnalysisDone 1]).
Proof. vm_compute. reflexivity. Qed.

(** C2. When the call for one batch raises or its answer cannot be parsed,
    that batch adds nothing to the collected list and a skip message for it
    is printed; the collected list is what the batches before it and the
    batches after it contribute, so the run ends as the aggregation of those
    entries ends; when all of them are judged without an exception, a report
    is returned and its counts are theirs. *)
Theorem failed_batch_is_skipped service json_loads focus_results initial_screenshot url
    pre batch post :
  make_batches focus_results = pre ++ batch :: post ->
  call_fails service json_loads (length pre) (build_request batch url) ->
  let k := length pre in
  let others :=
    concat (contributions service json_loads initial_screenshot url 0 pre)
    ++ concat (contributions service json_loads initial_screenshot url (S k) post) in
  (exists l,
      analyze_step service json_loads k batch initial_screenshot url = ([], l)
      /\ (In (BatchSkipped (k + 1)) l \/ In (BatchFailed (k + 1)) l))
  /\ collected service json_loads initial_screenshot url focus_results = others
  /\ fst (process_focus_results service json_loads focus_results initial_screenshot url)
     = fst (aggregate url others [])
  /\ (Forall (fun r => judged r = true) others ->
      exists rep log,
        process_focus_results service json_loads focus_results initial_screenshot url
        = (Ok rep, log)
        /\ total_focusable_elements rep = length others
        /\ visible_focus_elements rep = length (List.filter is_visible others)
        /\ invisible_focus_elements rep = length (List.filter is_invisible others)).
Proof.
  intros Hb Hf k others.
  destruct (analyze_step_fails _ _ _ _ initial_screenshot _ Hf) as (l & El & Hl).
  assert (Hall : collected service json_loads initial_screenshot url focus_results = others).
  { unfold collected, others. rewrite Hb, contributions_app, Nat.add_0_l.
    cbn [contributions]. fold k in El |- *. rewrite El. cbn [fst].
    rewrite concat_app. cbn [concat app]. reflexivity. }
  split; [exists l; split; assumption |].
  split; [exact Hall |].
  rewrite process_focus_results_spec, Hall.
  split; [apply aggregate_log |].
  intros Hj. rewrite (aggregate_judged _ _ _ Hj).
  eexists _, _. split; [reflexivity |]. cbn. auto.
Qed.

Lemma failed_batch_is_skipped_witness :
  call_fails garbled_service five_loads 1 (build_request (drop 5 seven_records) example_url)
  /\ exists rep log,
       process_focus_results garbled_service five_loads seven_records "" example_url
       = (Ok rep, log)
       /\ total_focusable_elements rep = 5
       /\ visible_focus_elements rep = 5
       /\ invisible_focus_elements rep = 0.
Proof.
  assert (Hf : call_fails garbled_service five_loads (length [take 5 seven_records])
                 (build_request (drop 5 seven_records) example_url)).
  { right. right. eexists. split; [reflexivity |]. left. reflexivity. }
  split; [exact Hf |].
  destruct (failed_batch_is_skipped garbled_service five_loads seven_records ""
              example_url [take 5 seven_records] (drop 5 seven_records) []
              eq_refl Hf) as (_ & _ & _ & H).
  destruct H as (rep & log & Hp & Ht & Hv & Hi).
  - vm_compute. repeat constructor.
  - exists rep, log. split; [exact Hp |].
    split; [rewrite Ht | split; [rewrite Hv | rewrite Hi]]; vm_compute; reflexivity.
Defined.

(** C7, as stated, fails: the answer with one complete entry and one entry
    without the analysis key (or with an analysis without focus_visible) is
    not discarded; both entries are collected and the complete one is
    reported. *)
Lemma incomplete_result_counterexample :
  analyze_step mixed_service mixed_loads 0 mixed_records "" example_url
  = ([visible_entry 0; incomplete_entry 1], [AnalysisDone 2])
  /\ lacks_analysis (incomplete_entry 1) = true
  /\ analyze_step unjudged_service unjudged_loads 0 mixed_records "" example_url
     = ([visible_entry 0; unjudged_entry 1], [AnalysisDone 2])
  /\ focus_visible_of (unjudged_entry 1) = Some (PBool false)
  /\ fst (process_focus_results mixed_service mixed_loads mixed_records "" example_url)
     = Ok (make_report example_url [visible_entry 0; incomplete_entry 1]
             [visible_entry 0] []).
Proof. repeat split; vm_compute; reflexivity. Qed.

(** C7, amended.  When the answer holds an opening brace and the extracted
    text decodes to a dict with a list under the elements key, the function
    returns that list as decoded, whatever its entries hold, and a list that
    is not empty is collected whole; entries are examined only later, by the
    aggregation loop. *)
Theorem batch_kept_without_validation service json_loads k batch initial_screenshot url
    response_text d elements :
  service k (build_request batch url) = Response response_text ->
  py_find response_text lbrace <> (-1)%Z ->
  json_loads (normalized response_text) = Some (PDict d) ->
  dict_lookup "elements" d = Some (PList elements) ->
  analyze_focus_batch service json_loads k batch initial_screenshot url
  = (Ok (Some (PList elements)), [AnalysisDone (length elements)])
  /\ (elements <> [] ->
      analyze_step service json_loads k batch initial_screenshot url
      = (elements, [AnalysisDone (length elements)])).
Proof.
  intros Es Hf Hd He.
  assert (Hr : (py_rfind response_text rbrace + 1)%Z <> (-1)%Z).
  { assert (Hge : forall s c, (-1 <= py_rfind s c)%Z).
    { intros s c. induction s as [| x s IH]; cbn; [lia |].
      destruct (py_rfind s c =? -1)%Z; [destruct (Ascii.eqb x c) |]; lia. }
    specialize (Hge response_text rbrace). lia. }
  assert (Ha : analyze_focus_batch service json_loads k batch initial_screenshot url
               = (Ok (Some (PList elements)), [AnalysisDone (length elements)])).
  { unfold analyze_focus_batch, parse_response. rewrite Es.
    apply Z.eqb_neq in Hf, Hr. rewrite Hf, Hr. cbn [negb andb].
    unfold normalized in Hd. rewrite Hd. cbn. rewrite He. reflexivity. }
  split; [exact Ha |].
  intros Hne. unfold analyze_step. rewrite Ha.
  destruct elements as [| e rest]; [congruence | reflexivity].
Qed.

Lemma batch_kept_without_validation_witness :
  analyze_focus_batch mixed_service mixed_loads 0 mixed_records "" example_url
  = (Ok (Some (PList [visible_entry 0; incomplete_entry 1])), [AnalysisDone 2])
  /\ ([visible_entry 0; incomplete_entry 1] <> [] ->
      analyze_step mixed_service mixed_loads 0 mixed_records "" example_url
      = ([visible_entry 0; incomplete_entry 1], [AnalysisDone 2])).
Proof.
  apply (batch_kept_without_validation mixed_service mixed_loads 0 mixed_records ""
           example_url mixed_text
           [("elements", PList [visible_entry 0; incomplete_entry 1])]).
  - reflexivity.
  - vm_compute. discriminate.
  - vm_compute. reflexivity.
  - reflexivity.
Defined.

(** ** C8: compliance *)

Lemma filter_all {A} (p : A -> bool) l :
  Forall (fun x => p x = true) l -> List.filter p l = l.
Proof.
  induction 1 as [| x l Hx _ IH]; cbn; [reflexivity |]. rewrite Hx, IH. reflexivity.
Qed.

Lemma filter_none {A} (p : A -> bool) l :
  Forall (fun x => p x = false) l -> List.filter p l = [].
Proof.
  induction 1 as [| x l Hx _ IH]; cbn; [reflexivity |]. rewrite Hx, IH. reflexivity.
Qed.

Lemma make_batches_7 {A} (l : list A) :
  length l = 7 -> make_batches l = [take 5 l; drop 5 l].
Proof.
  intros H. rewrite make_batches_unfold, H. cbn.
  rewrite drop_0. do 2 f_equal. apply take_ge. rewrite length_drop. lia.
Qed.

(** C8. In every report the compliant flag is the test that the invisible
    count is zero, and that count is taken over the collected entries only.
    For seven records, when the first call answers with five entries all
    judged visible and the second call raises, the batches are the first
    five and the last two records and the report has total 5, visible 5,
    invisible 0 and is compliant. *)
Theorem compliance_is_derived service json_loads focus_results initial_screenshot url :
  (forall rep log,
      process_focus_results service json_loads focus_results initial_screenshot url
      = (Ok rep, log) ->
      wcag_2_4_7_compliant rep = Nat.eqb (invisible_focus_elements rep) 0
      /\ invisible_focus_elements rep
         = length (List.filter is_invisible
                     (collected service json_loads initial_screenshot url focus_results)))
  /\ (forall response_text elements l,
      length focus_results = 7 ->
      service 0 (build_request (take 5 focus_results) url) = Response response_text ->
      parse_response json_loads response_text = (Some (PList elements), l) ->
      length elements = 5 ->
      Forall judged_visible elements ->
      (service 1 (build_request (drop 5 focus_results) url) = ClientRaises
       \/ service 1 (build_request (drop 5 focus_results) url) = RequestRaises) ->
      make_batches focus_results = [take 5 focus_results; drop 5 focus_results]
      /\ exists log,
          process_focus_results service json_loads focus_results initial_screenshot url
          = (Ok {| url := url;
                   total_focusable_elements := 5;
                   visible_focus_elements := 5;
                   invisible_focus_elements := 0;
                   visible_elements := elements;
                   invisible_elements := [];
                   wcag_2_4_7_compliant := true |}, log)).
Proof.
  split.
  - intros rep log H. rewrite process_focus_results_spec in H.
    apply aggregate_Ok in H. destruct H as (_ & -> & _). cbn. auto.
  - intros text elements l H7 E0 Ep H5 Hv E1.
    pose proof (make_batches_7 _ H7) as Hb. split; [exact Hb |].
    assert (Hall : collected service json_loads initial_screenshot url focus_results
                   = elements).
    { unfold collected. rewrite Hb. cbn [contributions concat].
      unfold analyze_step, analyze_focus_batch. rewrite E0, Ep.
      destruct elements as [| e rest]; [discriminate H5 |]. cbn [truthy length py_iter fst].
      cbn [Nat.eqb negb].
      destruct E1 as [E1 | E1]; rewrite E1; cbn [fst app]; rewrite app_nil_r; reflexivity. }
    assert (Hvis : Forall (fun r => is_visible r = true) elements).
    { eapply Forall_impl; [exact Hv |]. intros r (fv & Ef & Ht).
      rewrite is_visible_spec, Ef. exact Ht. }
    assert (Hinv : Forall (fun r => is_invisible r = false) elements).
    { eapply Forall_impl; [exact Hv |]. intros r (fv & Ef & Ht).
      rewrite is_invisible_spec, Ef, Ht. reflexivity. }
    assert (Hj : Forall (fun r => judged r = true) elements).
    { eapply Forall_impl; [exact Hv |]. intros r (fv & Ef & Ht).
      apply well_formed_judged. unfold well_formed. rewrite Ef. reflexivity. }
    rewrite process_focus_results_spec, Hall, (aggregate_judged _ _ _ Hj).
    rewrite (filter_all _ _ Hvis), (filter_none _ _ Hinv).
    eexists. unfold make_report. rewrite H5. reflexivity.
Qed.

Lemma compliance_is_derived_witness :
  make_batches seven_records = [take 5 seven_records; drop 5 seven_records]
  /\ exists log,
      process_focus_results failing_service five_loads seven_records "" example_url
      = (Ok {| url := example_url;
               total_focusable_elements := 5;
               visible_focus_elements := 5;
               invisible_focus_elements := 0;
               visible_elements := five_visible;
               invisible_elements := [];
               wcag_2_4_7_compliant := true |}, log).
Proof.
  apply (proj2 (compliance_is_derived failing_service five_loads seven_records ""
                  example_url) five_text five_visible [AnalysisDone 5]).
  - reflexivity.
  - reflexivity.
  - vm_compute. reflexivity.
  - reflexivity.
  - repeat constructor; (eexists; split; [vm_compute; reflexivity | reflexivity]).
  - right. reflexivity.
Defined.

(** ** C3, C5: the Tab loop *)

Section TraversalFacts.
Variable browser : nat -> tab_outcome.

Lemma length_records_upto k :
  (forall i, i < k -> fresh_step browser i) -> length (records_upto browser k) = k.
Proof.
  induction k as [| k IH]; intros Hf; [reflexivity |].
  cbn [records_upto]. rewrite length_app, IH by (intros i Hi; apply Hf; lia).
  destruct (Hf k (Nat.lt_succ_diag_r k)) as (o & a & Eb & Ea & _).
  unfold step_record. rewrite Eb, Ea. cbn. lia.
Qed.

Lemma tab_loop_stops_at_repeat n : forall fuel tab_index o,
  n < fuel ->
  tab_index + n < max_tabs ->
  (forall i, tab_index <= i < tab_index + n -> fresh_step browser i) ->
  browser (tab_index + n) = Focused o ->
  obs_signature o ∈ seen_upto browser (tab_index + n) ->
  tab_loop browser fuel tab_index (seen_upto browser tab_index) (records_upto browser tab_index)
  = Ok (records_upto browser (tab_index + n)).
Proof.
  induction n as [| n IH]; intros fuel ti o Hfuel Hmax Hfresh Eb Hin;
    (destruct fuel as [| fuel]; [lia |]); cbn [tab_loop];
    (destruct (Nat.ltb_spec ti max_tabs) as [_ | Hge]; [| lia]).
  - rewrite Nat.add_0_r in *. rewrite Eb.
    rewrite bool_decide_eq_true_2 by exact Hin. reflexivity.
  - destruct (Hfresh ti ltac:(lia)) as (o' & a & Eb' & Ea & Hnew).
    rewrite Eb'. rewrite bool_decide_eq_false_2 by exact Hnew. rewrite Ea.
    replace (ti + S n) with (S ti + n) in * by lia.
    rewrite <- (IH fuel (S ti) o); try assumption; try lia.
    + cbn [seen_upto records_upto]. unfold step_signature, step_record.
      rewrite Eb', Ea. reflexivity.
    + intros i Hi. apply Hfresh. lia.
Qed.

Lemma tab_loop_invariant fuel : forall ti seen acc rs,
  tab_loop browser fuel ti seen acc = Ok rs ->
  length acc = ti ->
  ti <= max_tabs ->
  (forall i r, acc !! i = Some r -> tab_index r = i) ->
  length rs <= max_tabs
  /\ (forall i r, rs !! i = Some r -> tab_index r = i).
Proof.
  induction fuel as [| fuel IH]; intros ti seen acc rs H Hlen Hle Hidx; cbn [tab_loop] in H.
  - inversion H; subst rs. split; [lia | exact Hidx].
  - destruct (Nat.ltb_spec ti max_tabs) as [Hlt | Hge].
    + destruct (browser ti) as [| o]; [discriminate H |].
      destruct (bool_decide (obs_signature o ∈ seen)).
      * inversion H; subst rs. split; [lia | exact Hidx].
      * destruct (obs_after o) as [a |]; [| discriminate H].
        apply IH in H; [exact H | rewrite length_app; cbn; lia | lia |].
        intros i r Hl. apply lookup_app_Some in Hl.
        destruct Hl as [Hl | [Hge Hl]]; [apply Hidx; exact Hl |].
        apply list_lookup_singleton_Some in Hl. destruct Hl as [Hi <-].
        cbn. lia.
    + inversion H; subst rs. split; [lia | exact Hidx].
Qed.

(** The fuel is never what ends the loop: any amount of at least
    [max_tabs - tab_index] gives the same result. *)
Lemma tab_loop_fuel f1 : forall f2 ti seen acc,
  max_tabs - ti <= f1 -> max_tabs - ti <= f2 ->
  tab_loop browser f1 ti seen acc = tab_loop browser f2 ti seen acc.
Proof.
  induction f1 as [| f1 IH]; intros f2 ti seen acc H1 H2;
    destruct f2 as [| f2]; cbn [tab_loop]; try reflexivity;
    destruct (Nat.ltb_spec ti max_tabs) as [Hlt | Hge]; try reflexivity; try lia.
  destruct (browser ti) as [| o]; [reflexivity |].
  destruct (bool_decide _); [reflexivity |].
  destruct (obs_after o); [| reflexivity].
  apply IH; lia.
Qed.

End TraversalFacts.

(** The signature is a string joined with underscores, so two elements that
    differ in id and class can have the same signature. *)
Lemma element_signature_collision :
  element_signature "A" "nav_top" "link" "/html/body/a[1]"
  = element_signature "A" "nav" "top_link" "/html/body/a[1]".
Proof. reflexivity. Qed.

(** C3. If, after k passes that each focused an element not seen before,
    pass k (below the cap) focuses an element whose signature is in the
    seen set, the traversal returns the k records of those passes and
    nothing of pass k.  In particular, when the first three passes focus
    A, B and C with pairwise different signatures and the fourth focuses an
    element with the signature of A, exactly the records of A, B and C are
    returned. *)
Theorem cycle_detection browser :
  (forall k o,
      k < max_tabs ->
      (forall i, i < k -> fresh_step browser i) ->
      browser k = Focused o ->
      obs_signature o ∈ seen_upto browser k ->
      traverse browser = Ok (records_upto browser k)
      /\ length (records_upto browser k) = k)
  /\ (forall oA oB oC oA' a b c,
      browser 0 = Focused oA -> obs_after oA = Some a ->
      browser 1 = Focused oB -> obs_after oB = Some b ->
      browser 2 = Focused oC -> obs_after oC = Some c ->
      browser 3 = Focused oA' ->
      obs_signature oA' = obs_signature oA ->
      obs_signature oB <> obs_signature oA ->
      obs_signature oC <> obs_signature oA ->
      obs_signature oC <> obs_signature oB ->
      traverse browser
      = Ok [element_info 0 oA a; element_info 1 oB b; element_info 2 oC c]).
Proof.
  assert (Hgen : forall k o,
      k < max_tabs ->
      (forall i, i < k -> fresh_step browser i) ->
      browser k = Focused o ->
      obs_signature o ∈ seen_upto browser k ->
      traverse browser = Ok (records_upto browser k)).
  { intros k o Hk Hf Eb Hin. unfold traverse.
    apply (tab_loop_stops_at_repeat browser k max_tabs 0 o); try assumption.
    intros i Hi. apply Hf. lia. }
  split.
  - intros k o Hk Hf Eb Hin. split; [eapply Hgen; eassumption |].
    apply length_records_upto. exact Hf.
  - intros oA oB oC oA' a b c EA Ea EB Eb EC Ec EA' Hsig HBA HCA HCB.
    assert (Hseen0 : seen_upto browser 0 = ∅) by reflexivity.
    assert (Hseen1 : seen_upto browser 1 = {[obs_signature oA]} ∪ ∅).
    { cbn [seen_upto]. unfold step_signature. rewrite EA. reflexivity. }
    assert (Hseen2 : seen_upto browser 2 = {[obs_signature oB]} ∪ ({[obs_signature oA]} ∪ ∅)).
    { cbn [seen_upto] in Hseen1 |- *. rewrite Hseen1. unfold step_signature. rewrite EB. reflexivity. }
    assert (Hseen3 : seen_upto browser 3
                 = {[obs_signature oC]} ∪ ({[obs_signature oB]} ∪ ({[obs_signature oA]} ∪ ∅))).
    { cbn [seen_upto] in Hseen2 |- *. rewrite Hseen2. unfold step_signature. rewrite EC. reflexivity. }
    rewrite (Hgen 3 oA').
    + cbn [records_upto]. unfold step_record. rewrite EA, Ea, EB, Eb, EC, Ec. reflexivity.
    + unfold max_tabs. lia.
    + intros i Hi. unfold fresh_step.
      destruct i as [| [| [| i]]]; [| | | lia].
      * exists oA, a. rewrite Hseen0. repeat split; try assumption. solve_seen.
      * exists oB, b. rewrite Hseen1. repeat split; try assumption. solve_seen.
      * exists oC, c. rewrite Hseen2. repeat split; try assumption. solve_seen.
    + exact EA'.
    + rewrite Hseen3, Hsig. solve_seen.
Qed.

(** C5. A traversal that returns gives at most 100 records, and the record
    at position i carries tab_index i. *)
Theorem traversal_bounded browser records :
  traverse browser = Ok records ->
  length records <= 100
  /\ (forall i r, records !! i = Some r -> tab_index r = i).
Proof.
  intros H. unfold traverse in H.
  apply tab_loop_invariant in H; [exact H | reflexivity | lia |].
  intros i r Hl. rewrite lookup_nil in Hl. discriminate Hl.
Qed.

Lemma cycle_detection_witness :
  traverse abc_browser
  = Ok [element_info 0 (link_obs "home") "iVBORw0KGgp=";
        element_info 1 (link_obs "about") "iVBORw0KGgp=";
        element_info 2 (link_obs "contact") "iVBORw0KGgp="].
Proof.
  apply (proj2 (cycle_detection abc_browser)
           (link_obs "home") (link_obs "about") (link_obs "contact") (link_obs "home"));
    try reflexivity; vm_compute; discriminate.
Defined.

Lemma traversal_bounded_witness :
  traverse abc_browser = Ok abc_records
  /\ length abc_records <= 100
  /\ (forall i r, abc_records !! i = Some r -> tab_index r = i).
Proof.
  assert (H : traverse abc_browser = Ok abc_records) by (vm_compute; reflexivity).
  split; [exact H |].
  exact (traversal_bounded abc_browser abc_records H).
Defined.

(** When every Tab reaches an element with a new id, the cap ends the loop,
    with exactly 100 records. *)
Lemma traverse_reaches_cap :
  match traverse counting_browser with
  | Ok records => length records
  | Raise _ => 0
  end = 100.
Proof. vm_compute. reflexivity. Qed.

(** ** C9: release of the session and of its directory *)

(** X19. Once the session has started, every way through the try block ends with
    the session closed and the directory removed, provided [quit] does not
    raise and [rmtree] does remove. *)
Lemma released_after_setup w url os driver :
  chrome w = Some driver ->
  quit_raises w = false ->
  rmtree_removes w = true ->
  mkdtemp w <> "" ->
  (mkdtemp w ∉ temp_dirs (snd (check_focus_visibility w url os)))
  /\ (driver ∉ sessions (snd (check_focus_visibility w url os))).
Proof.
  intros Ec Eq Er Hne.
  unfold check_focus_visibility, setup_driver, driver_quit, cleanup_temp_dir.
  rewrite Ec, Eq, Er.
  destruct (traverse_and_process w url) as [result log].
  cbn [snd temp_dirs sessions].
  assert (Hlen : Nat.eqb (String.length (mkdtemp w)) 0 = false).
  { destruct (mkdtemp w); [congruence | reflexivity]. }
  rewrite Hlen. cbn [negb andb].
  rewrite bool_decide_eq_true_2 by (apply elem_of_union_l, elem_of_singleton; reflexivity).
  cbn [snd temp_dirs sessions].
  split; rewrite elem_of_difference, elem_of_singleton; tauto.
Qed.

(** When the browser cannot be started, the exception leaves the function
    and the directory made by [setup_driver] stays. *)
Lemma setup_failure_keeps_temp_dir w url os :
  chrome w = None ->
  check_focus_visibility w url os
  = (Raise WebDriverException, [],
     {| temp_dirs := {[mkdtemp w]} ∪ temp_dirs os; sessions := sessions os |}).
Proof.
  intros Ec. unfold check_focus_visibility, setup_driver. rewrite Ec. reflexivity.
Qed.

(** When [driver.quit()] raises in the finally block, the cleanup after it
    is not reached: session and directory stay. *)
Lemma quit_failure_keeps_both w url os driver :
  chrome w = Some driver ->
  quit_raises w = true ->
  mkdtemp w ∈ temp_dirs (snd (check_focus_visibility w url os))
  /\ driver ∈ sessions (snd (check_focus_visibility w url os)).
Proof.
  intros Ec Eq.
  unfold check_focus_visibility, setup_driver, driver_quit. rewrite Ec, Eq.
  destruct (traverse_and_process w url) as [result log].
  cbn [snd temp_dirs sessions].
  split; apply elem_of_union_l, elem_of_singleton; reflexivity.
Qed.

(** C9, at the failing run: Chrome does not start, the exception is raised
    again, no report is produced, and the directory made during setup is
    still on disk after the run. *)
Theorem setup_failure_leaks_temp_dir :
  exists os',
    check_focus_visibility no_chrome_world example_url empty_os
    = (Raise WebDriverException, [], os')
    /\ "/tmp/tmpk3x9a2vq" ∈ temp_dirs os'.
Proof.
  eexists. split.
  - apply setup_failure_keeps_temp_dir. reflexivity.
  - cbn [temp_dirs]. apply elem_of_union_l, elem_of_singleton. reflexivity.
Qed.

(* ===================================================================== *)
(** * Further properties of the code *)
(* ===================================================================== *)

(** ** How a traversal ends *)

Section TraversalEnd.
Variable browser : nat -> tab_outcome.

Lemma record_signature_info i o after :
  record_signature (element_info i o after) = obs_signature o.
Proof. reflexivity. Qed.

Lemma fresh_step_unfold i o after :
  browser i = Focused o -> obs_after o = Some after ->
  records_upto browser (S i) = records_upto browser i ++ [element_info i o after]
  /\ seen_upto browser (S i) = {[obs_signature o]} ∪ seen_upto browser i.
Proof.
  intros Eb Ea. cbn [records_upto seen_upto]. unfold step_record, step_signature.
  rewrite Eb, Ea. split; reflexivity.
Qed.

(** Every way the loop can end, from a state reached by fresh passes. *)
Lemma tab_loop_end fuel : forall ti,
  max_tabs - ti <= fuel ->
  ti <= max_tabs ->
  (forall i, i < ti -> fresh_step browser i) ->
  exists k,
    ti <= k <= max_tabs
    /\ (forall i, i < k -> fresh_step browser i)
    /\ ((tab_loop browser fuel ti (seen_upto browser ti) (records_upto browser ti)
         = Ok (records_upto browser k)
         /\ (k = max_tabs
             \/ exists o, browser k = Focused o
                          /\ obs_signature o ∈ seen_upto browser k))
        \/ (tab_loop browser fuel ti (seen_upto browser ti) (records_upto browser ti)
            = Raise WebDriverException
            /\ k < max_tabs
            /\ (browser k = DriverRaises
                \/ exists o, browser k = Focused o
                             /\ (obs_signature o ∉ seen_upto browser k)
                             /\ obs_after o = None))).
Proof.
  induction fuel as [| fuel IH]; intros ti Hfuel Hle Hfresh.
  - exists ti. split; [lia |]. split; [exact Hfresh |]. left.
    split; [reflexivity | left; lia].
  - cbn [tab_loop]. destruct (Nat.ltb_spec ti max_tabs) as [Hlt | Hge].
    + destruct (browser ti) as [| o] eqn:Eb.
      * exists ti. split; [lia |]. split; [exact Hfresh |]. right. auto.
      * destruct (decide (obs_signature o ∈ seen_upto browser ti)) as [Hin | Hnew].
        -- rewrite bool_decide_eq_true_2 by exact Hin.
           exists ti. split; [lia |]. split; [exact Hfresh |]. left.
           split; [reflexivity |]. right. exists o. auto.
        -- rewrite bool_decide_eq_false_2 by exact Hnew.
           destruct (obs_after o) as [a |] eqn:Ea.
           ++ destruct (fresh_step_unfold ti o a Eb Ea) as [Er Es].
              rewrite <- Er, <- Es.
              destruct (IH (S ti)) as (k & Hk & Hf & Hend); [lia | lia | |].
              { intros i Hi. destruct (decide (i = ti)) as [-> | Hne].
                - exists o, a. auto.
                - apply Hfresh. lia. }
              exists k. split; [lia |]. split; [exact Hf | exact Hend].
           ++ exists ti. split; [lia |]. split; [exact Hfresh |]. right.
              split; [reflexivity |]. split; [exact Hlt |]. right. exists o. auto.
    + exists ti. split; [lia |]. split; [exact Hfresh |]. left.
      split; [reflexivity | left; lia].
Qed.

Lemma traverse_end :
  exists k,
    k <= max_tabs
    /\ (forall i, i < k -> fresh_step browser i)
    /\ ((traverse browser = Ok (records_upto browser k)
         /\ (k = max_tabs
             \/ exists o, browser k = Focused o
                          /\ obs_signature o ∈ seen_upto browser k))
        \/ (traverse browser = Raise WebDriverException
            /\ k < max_tabs
            /\ (browser k = DriverRaises
                \/ exists o, browser k = Focused o
                             /\ (obs_signature o ∉ seen_upto browser k)
                             /\ obs_after o = None))).
Proof.
  destruct (tab_loop_end max_tabs 0) as (k & Hk & Hf & Hend); [lia | lia | |].
  { intros i Hi. lia. }
  exists k. split; [lia |]. split; [exact Hf | exact Hend].
Qed.


Lemma seen_upto_signatures k :
  (forall j, j < k -> fresh_step browser j) ->
  forall s, s ∈ seen_upto browser k
            <-> In s (map record_signature (records_upto browser k)).
Proof.
  induction k as [| k IH]; intros Hf s.
  - cbn. rewrite elem_of_empty. tauto.
  - destruct (Hf k (Nat.lt_succ_diag_r k)) as (o & a & Eb & Ea & _).
    destruct (fresh_step_unfold k o a Eb Ea) as [Er Es]. rewrite Er, Es.
    rewrite elem_of_union, elem_of_singleton, map_app, in_app_iff.
    rewrite IH by (intros j Hj; apply Hf; lia). cbn [map In].
    rewrite record_signature_info. intuition congruence.
Qed.

Lemma records_upto_NoDup k :
  (forall j, j < k -> fresh_step browser j) ->
  NoDup (map record_signature (records_upto browser k)).
Proof.
  induction k as [| k IH]; intros Hf.
  - apply NoDup_nil_2.
  - destruct (Hf k (Nat.lt_succ_diag_r k)) as (o & a & Eb & Ea & Hnew).
    destruct (fresh_step_unfold k o a Eb Ea) as [Er _]. rewrite Er.
    rewrite map_app. cbn [map]. rewrite record_signature_info.
    apply NoDup_app. split; [apply IH; intros j Hj; apply Hf; lia |].
    split; [| apply NoDup_singleton].
    intros s Hs Hs'. apply list_elem_of_singleton in Hs'. subst s.
    apply Hnew. apply seen_upto_signatures; [intros j Hj; apply Hf; lia |].
    apply list_elem_of_In. exact Hs.
Qed.
End TraversalEnd.


(** X1. A traversal that returns fewer than 100 records ended because the
    next pass focused an element whose signature is that of a returned
    record; otherwise it returns exactly 100 records. *)
Theorem traversal_ends_by_repeat_or_cap browser records :
  traverse browser = Ok records ->
  length records = 100
  \/ (length records < 100
      /\ exists o,
          browser (length records) = Focused o
          /\ In (obs_signature o) (map record_signature records)).
Proof.
  intros H. destruct (traverse_end browser) as (k & Hk & Hf & [[E Hend] | [E _]]);
    [| congruence].
  rewrite E in H. inversion H; subst records.
  rewrite (length_records_upto browser k Hf).
  destruct Hend as [-> | (o & Eb & Hin)]; [left; reflexivity |].
  destruct (decide (k = max_tabs)) as [-> | Hne]; [left; reflexivity |].
  right. split; [unfold max_tabs in *; lia |]. exists o. split; [exact Eb |].
  apply seen_upto_signatures; assumption.
Qed.

Lemma traversal_ends_by_repeat_or_cap_witness :
  length abc_records = 100
  \/ (length abc_records < 100
      /\ exists o,
          abc_browser (length abc_records) = Focused o
          /\ In (obs_signature o) (map record_signature abc_records)).
Proof.
  apply (traversal_ends_by_repeat_or_cap abc_browser abc_records).
  vm_compute. reflexivity.
Defined.

(** X2. The records of a traversal have pairwise different signatures: no
    element is recorded twice. *)
Theorem traversal_records_distinct browser records :
  traverse browser = Ok records ->
  NoDup (map record_signature records).
Proof.
  intros H. destruct (traverse_end browser) as (k & Hk & Hf & [[E _] | [E _]]);
    [| congruence].
  rewrite E in H. inversion H; subst records.
  apply records_upto_NoDup. exact Hf.
Qed.

Lemma traversal_records_distinct_witness :
  NoDup (map record_signature abc_records).
Proof.
  apply (traversal_records_distinct abc_browser abc_records).
  vm_compute. reflexivity.
Defined.



(** X4. A traversal raises only when, at some pass below the cap, a driver
    call raised: reading the focused element or taking a screenshot. *)
Theorem traversal_raises_only_on_driver_error browser e :
  traverse browser = Raise e ->
  e = WebDriverException
  /\ exists i,
      i < 100
      /\ (browser i = DriverRaises
          \/ exists o, browser i = Focused o /\ obs_after o = None).
Proof.
  intros H. destruct (traverse_end browser) as (k & Hk & Hf & [[E _] | (E & Hlt & Hc)]);
    [congruence |].
  rewrite E in H. inversion H; subst e. split; [reflexivity |].
  exists k. split; [exact Hlt |].
  destruct Hc as [Hc | (o & Eb & _ & Ea)]; [left; exact Hc | right; eauto].
Qed.

Lemma traversal_raises_only_on_driver_error_witness :
  WebDriverException = WebDriverException
  /\ exists i,
      i < 100
      /\ (crashing_browser i = DriverRaises
          \/ exists o, crashing_browser i = Focused o /\ obs_after o = None).
Proof.
  apply (traversal_raises_only_on_driver_error crashing_browser WebDriverException).
  vm_compute. reflexivity.
Defined.

(** X5. A locator that cannot be computed never ends the run: when every
    pass below the cap focuses an element and both screenshots are taken, the
    traversal returns, whatever the locator script does. *)
Theorem locator_failure_is_not_fatal browser :
  (forall i, i < 100 ->
     exists o after, browser i = Focused o /\ obs_after o = Some after) ->
  exists records, traverse browser = Ok records.
Proof.
  intros Hall. destruct (traverse_end browser) as (k & Hk & Hf & [[E _] | (E & Hlt & Hc)]).
  - eexists. exact E.
  - destruct (Hall k Hlt) as (o & a & Eb & Ea).
    destruct Hc as [Hc | (o' & Eb' & _ & Ea')]; [congruence |].
    rewrite Eb in Eb'. inversion Eb'; subst o'. congruence.
Qed.

Lemma locator_failure_is_not_fatal_witness :
  exists records, traverse unlocated_browser = Ok records.
Proof.
  apply (locator_failure_is_not_fatal unlocated_browser).
  intros i _. eexists _, _. split; reflexivity.
Defined.

(** X6. Two elements in a row whose locator cannot be computed and which
    have the same tag, id and class get the same signature: the traversal
    stops after the first one, as if focus had wrapped. *)
Theorem unknown_locator_collision browser o0 o1 after :
  browser 0 = Focused o0 ->
  obs_after o0 = Some after ->
  browser 1 = Focused o1 ->
  obs_xpath o0 = XPathRaises ->
  obs_xpath o1 = XPathRaises ->
  obs_tag o1 = obs_tag o0 ->
  obs_id o1 = obs_id o0 ->
  obs_class o1 = obs_class o0 ->
  traverse browser = Ok [element_info 0 o0 after].
Proof.
  intros E0 Ea E1 X0 X1 Ht Hi Hc.
  assert (Hs : obs_signature o1 = obs_signature o0).
  { unfold obs_signature, obs_locator. rewrite X0, X1, Ht, Hi, Hc. reflexivity. }
  assert (Hseen : seen_upto browser 1 = {[obs_signature o0]} ∪ ∅).
  { cbn [seen_upto]. unfold step_signature. rewrite E0. reflexivity. }
  unfold traverse.
  transitivity (Ok (records_upto browser (0 + 1)));
    [apply (tab_loop_stops_at_repeat browser 1 max_tabs 0 o1) |].
  6: { cbn [records_upto Nat.add]. unfold step_record. rewrite E0, Ea. reflexivity. }
  - unfold max_tabs. lia.
  - unfold max_tabs. lia.
  - intros i Hi'. assert (i = 0) as -> by lia.
    exists o0, after. repeat split; try assumption. cbn [seen_upto]. solve_seen.
  - exact E1.
  - cbn [Nat.add]. rewrite Hseen, Hs. solve_seen.
Qed.

Lemma unknown_locator_collision_witness :
  traverse unlocated_browser = Ok [element_info 0 (unlocated_obs "btn") "iVBORw0KGgp="].
Proof.
  apply (unknown_locator_collision unlocated_browser
           (unlocated_obs "btn") (unlocated_obs "btn")); reflexivity.
Defined.

(** X7. The records of a traversal fill at most 20 batches, and the record
    at place i of batch k is the one with tab_index 5k + i. *)
Theorem traversal_batches browser records :
  traverse browser = Ok records ->
  length (make_batches records) <= 20
  /\ (forall k b i r,
        make_batches records !! k = Some b ->
        b !! i = Some r ->
        tab_index r = 5 * k + i).
Proof.
  intros H. unfold traverse in H.
  apply tab_loop_invariant in H; [| reflexivity | lia |].
  2: { intros i r Hl. rewrite lookup_nil in Hl. discriminate Hl. }
  destruct H as [Hlen Hidx].
  assert (Hn : length (make_batches records) = ceil_div (length records) batch_size).
  { rewrite make_batches_unfold, length_map, length_seq. reflexivity. }
  pose proof (ceil_div_5_bounds (length records)) as Hb.
  unfold batch_size, max_tabs in *.
  split; [lia |].
  intros k b i r Hk Hi.
  assert (Hlt : k < ceil_div (length records) 5).
  { apply lookup_lt_Some in Hk. lia. }
  rewrite (make_batches_lookup records k Hlt) in Hk. inversion Hk; subst b.
  apply lookup_take_Some in Hi. destruct Hi as [Hi _].
  rewrite lookup_drop in Hi. apply Hidx in Hi. unfold batch_size in Hi. lia.
Qed.

Lemma traversal_batches_witness :
  length (make_batches abc_records) <= 20
  /\ (forall k b i r,
        make_batches abc_records !! k = Some b ->
        b !! i = Some r ->
        tab_index r = 5 * k + i).
Proof.
  apply (traversal_batches abc_browser abc_records). vm_compute. reflexivity.
Defined.

(** ** The request built for a batch *)

Lemma media_blocks_length focus_batch : forall j,
  length (media_blocks j focus_batch) = 4 * length focus_batch.
Proof.
  induction focus_batch as [| e rest IH]; intros j; cbn [media_blocks length];
    [reflexivity |]. rewrite IH. lia.
Qed.

Lemma media_blocks_lookup focus_batch : forall j i element,
  focus_batch !! i = Some element ->
  media_blocks j focus_batch !! (4 * i)
  = Some (Image (before_tab_screenshot element))
  /\ media_blocks j focus_batch !! (4 * i + 1)
     = Some (Label ((j + i) * 2 + 1) (tab_index element) (element_tag element) false)
  /\ media_blocks j focus_batch !! (4 * i + 2)
     = Some (Image (after_tab_screenshot element))
  /\ media_blocks j focus_batch !! (4 * i + 3)
     = Some (Label ((j + i) * 2 + 2) (tab_index element) (element_tag element) true).
Proof.
  induction focus_batch as [| e rest IH]; intros j i element Hl.
  - rewrite lookup_nil in Hl. discriminate Hl.
  - destruct i as [| i]; cbn [media_blocks].
    + cbn in Hl. inversion Hl; subst e. rewrite Nat.add_0_r. cbn. auto.
    + cbn in Hl. destruct (IH (S j) i element Hl) as (H0 & H1 & H2 & H3).
      replace (4 * S i) with (S (S (S (S (4 * i))))) by lia.
      replace ((j + S i) * 2) with ((S j + i) * 2) by lia.
      cbn [lookup list_lookup Nat.add]. auto.
Qed.

(** X8. The request of a batch holds four media blocks per element, in the
    order of the batch: the before screenshot, its label, the after
    screenshot, its label; the labels number the images 1, 2, ... through the
    batch; the metadata list has the elements in the same order. *)
Theorem request_layout focus_batch url i element :
  focus_batch !! i = Some element ->
  let req := build_request focus_batch url in
  length (req_media req) = 4 * length focus_batch
  /\ length (req_elements req) = length focus_batch
  /\ req_elements req !! i = Some (element_data_of element)
  /\ req_media req !! (4 * i) = Some (Image (before_tab_screenshot element))
  /\ req_media req !! (4 * i + 1)
     = Some (Label (2 * i + 1) (tab_index element) (element_tag element) false)
  /\ req_media req !! (4 * i + 2) = Some (Image (after_tab_screenshot element))
  /\ req_media req !! (4 * i + 3)
     = Some (Label (2 * i + 2) (tab_index element) (element_tag element) true).
Proof.
  intros Hl req. unfold req, build_request. cbn [req_media req_elements].
  destruct (media_blocks_lookup focus_batch 0 i element Hl) as (H0 & H1 & H2 & H3).
  replace ((0 + i) * 2) with (2 * i) in * by lia.
  split; [apply media_blocks_length |].
  split; [apply length_map |].
  split; [rewrite list_lookup_fmap, Hl; reflexivity |].
  auto.
Qed.

Lemma request_layout_witness :
  let req := build_request mixed_records example_url in
  length (req_media req) = 4 * length mixed_records
  /\ length (req_elements req) = length mixed_records
  /\ req_elements req !! 1 = Some (element_data_of (sample_record 1))
  /\ req_media req !! (4 * 1) = Some (Image (before_tab_screenshot (sample_record 1)))
  /\ req_media req !! (4 * 1 + 1)
     = Some (Label (2 * 1 + 1) (tab_index (sample_record 1))
               (element_tag (sample_record 1)) false)
  /\ req_media req !! (4 * 1 + 2) = Some (Image (after_tab_screenshot (sample_record 1)))
  /\ req_media req !! (4 * 1 + 3)
     = Some (Label (2 * 1 + 2) (tab_index (sample_record 1))
               (element_tag (sample_record 1)) true).
Proof.
  apply (request_layout mixed_records example_url 1 (sample_record 1)). reflexivity.
Defined.

(** ** Extraction of the JSON text from an answer *)

Lemma py_find_range s c :
  (py_find s c = -1 \/ 0 <= py_find s c < Z.of_nat (String.length s))%Z.
Proof.
  induction s as [| x s IH]; cbn [py_find String.length]; [left; reflexivity |].
  destruct (Ascii.eqb x c); [right; lia |].
  destruct (Z.eqb_spec (py_find s c) (-1)); [left; reflexivity | right; lia].
Qed.

Lemma py_rfind_range s c :
  (py_rfind s c = -1 \/ 0 <= py_rfind s c < Z.of_nat (String.length s))%Z.
Proof.
  induction s as [| x s IH]; cbn [py_rfind String.length]; [left; reflexivity |].
  destruct (Z.eqb_spec (py_rfind s c) (-1)).
  - destruct (Ascii.eqb x c); [right; lia | left; reflexivity].
  - right. lia.
Qed.

Lemma py_find_absent s c :
  py_find s c = (-1)%Z <-> ~ In c (list_ascii_of_string s).
Proof.
  induction s as [| x s IH]; cbn [py_find list_ascii_of_string In]; [tauto |].
  destruct (Ascii.eqb_spec x c) as [-> | Hne].
  - split; [discriminate | intros H; exfalso; apply H; left; reflexivity].
  - pose proof (py_find_range s c) as Hr.
    destruct (Z.eqb_spec (py_find s c) (-1)) as [E | E].
    + split; [| reflexivity]. intros _ [H | H]; [congruence | apply IH in H; assumption].
    + split; [lia |]. intros H. exfalso. apply E, IH. intros Hin. apply H. right. exact Hin.
Qed.

Lemma py_rfind_absent s c :
  py_rfind s c = (-1)%Z <-> ~ In c (list_ascii_of_string s).
Proof.
  induction s as [| x s IH]; cbn [py_rfind list_ascii_of_string In]; [tauto |].
  pose proof (py_rfind_range s c) as Hr.
  destruct (Z.eqb_spec (py_rfind s c) (-1)) as [E | E].
  - destruct (Ascii.eqb_spec x c) as [-> | Hne].
    + split; [discriminate | intros H; exfalso; apply H; left; reflexivity].
    + split; [| reflexivity]. intros _ [H | H]; [congruence | apply IH in H; assumption].
  - split; [lia |]. intros H. exfalso. apply E, IH. intros Hin. apply H. right. exact Hin.
Qed.

Lemma substring_0_length n : forall s, String.substring n 0 s = "".
Proof.
  induction n as [| n IH]; intros s; destruct s as [| c s]; cbn; auto.
Qed.

(** X9. The message that no JSON could be extracted is given exactly for the
    answers without an opening brace; the test on the closing brace never
    fails, so an answer with an opening but no closing brace is handed to the
    decoder. *)
Theorem no_json_found_iff json_loads response_text :
  (py_rfind response_text rbrace + 1 <> -1)%Z
  /\ (parse_response json_loads response_text = (None, [NoJsonFound])
      <-> ~ In lbrace (list_ascii_of_string response_text)).
Proof.
  assert (Hr : (py_rfind response_text rbrace + 1 <> -1)%Z).
  { pose proof (py_rfind_range response_text rbrace). lia. }
  split; [exact Hr |].
  rewrite <- py_find_absent. unfold parse_response.
  apply Z.eqb_neq in Hr. rewrite Hr. cbn [negb]. rewrite andb_true_r.
  destruct (Z.eqb_spec (py_find response_text lbrace) (-1)) as [E | E]; cbn [negb].
  - tauto.
  - split; [| tauto]. intros H. exfalso.
    destruct (json_loads _) as [result |]; [| discriminate H].
    destruct (py_in "elements" result) as [[|] | e]; try discriminate H.
    destruct (elements ← py_getitem result "elements"; n ← py_len elements; mret (elements, n))
      as [[els n] | e]; discriminate H.
Qed.

(** X10. When the last closing brace is missing or precedes the first
    opening brace, the text handed to the decoder is empty. *)
Theorem crossed_braces_extract_nothing response_text :
  py_find response_text lbrace <> (-1)%Z ->
  (py_rfind response_text rbrace < py_find response_text lbrace)%Z ->
  normalized response_text = "".
Proof.
  intros Hf Hlt. unfold normalized, extract_json, str_slice.
  pose proof (py_find_range response_text lbrace) as Hr.
  pose proof (py_rfind_range response_text rbrace) as Hr'.
  replace (Z.to_nat (py_rfind response_text rbrace + 1)
           - Z.to_nat (py_find response_text lbrace)) with 0 by lia.
  rewrite substring_0_length. reflexivity.
Qed.

Lemma crossed_braces_extract_nothing_witness :
  normalized "} as asked, see { 'elements': [" = "".
Proof.
  apply crossed_braces_extract_nothing; vm_compute; [discriminate | reflexivity].
Defined.

Lemma In_substring c s : forall n m,
  In c (list_ascii_of_string (String.substring n m s)) -> In c (list_ascii_of_string s).
Proof.
  induction s as [| x s IH]; intros n m H.
  - destruct n, m; exact H.
  - destruct n as [| n]; [destruct m as [| m] |]; cbn in H |- *.
    + contradiction.
    + destruct H as [H | H]; [left; exact H | right; eapply IH; exact H].
    + right. eapply IH; exact H.
Qed.

Lemma In_append c s1 s2 :
  In c (list_ascii_of_string (s1 +:+ s2))
  <-> In c (list_ascii_of_string s1) \/ In c (list_ascii_of_string s2).
Proof.
  induction s1 as [| x s1 IH].
  - change ("" +:+ s2) with s2. cbn. tauto.
  - change (String x s1 +:+ s2) with (String x (s1 +:+ s2)).
    cbn [list_ascii_of_string In]. rewrite IH. tauto.
Qed.

Lemma replace_char_removes old new s :
  old <> new -> ~ In old (list_ascii_of_string (py_replace_char old new s)).
Proof.
  intros Hne. induction s as [| x s IH]; cbn; [tauto |].
  intros [H | H]; [| exact (IH H)].
  destruct (Ascii.eqb_spec x old); congruence.
Qed.

Lemma In_replace_pair c a b new s :
  In c (list_ascii_of_string (py_replace_pair a b new s)) ->
  In c (list_ascii_of_string s) \/ In c (list_ascii_of_string new).
Proof.
  enough (H : (In c (list_ascii_of_string (py_replace_pair a b new s)) ->
               In c (list_ascii_of_string s) \/ In c (list_ascii_of_string new))
              /\ forall x,
                  In c (list_ascii_of_string (py_replace_pair a b new (String x s))) ->
                  In c (list_ascii_of_string (String x s))
                  \/ In c (list_ascii_of_string new)) by exact (proj1 H).
  induction s as [| y s [IH1 IH2]].
  - split; [cbn; tauto |]. intros x. cbn. tauto.
  - split; [apply IH2 |]. intros x. cbn [py_replace_pair].
    destruct (Ascii.eqb x a && Ascii.eqb y b).
    + rewrite In_append. intros [H | H]; [right; exact H |].
      destruct (IH1 H) as [H' | H']; [left; cbn; tauto | right; exact H'].
    + cbn [list_ascii_of_string In]. intros [H | H]; [left; left; exact H |].
      destruct (IH2 y H) as [H' | H']; [left; right; exact H' | right; exact H'].
Qed.

Lemma In_lstrip c s :
  In c (list_ascii_of_string (py_lstrip s)) -> In c (list_ascii_of_string s).
Proof.
  induction s as [| x s IH]; cbn; [tauto |].
  destruct (is_space x); [intros H; right; exact (IH H) | cbn; tauto].
Qed.

Lemma In_rstrip c s :
  In c (list_ascii_of_string (py_rstrip s)) -> In c (list_ascii_of_string s).
Proof.
  induction s as [| x s IH]; cbn [py_rstrip]; [tauto |].
  destruct (py_rstrip s) as [| y r] eqn:E.
  - destruct (is_space x); cbn; tauto.
  - cbn [list_ascii_of_string In] in *. tauto.
Qed.

(** X11. The text handed to the decoder never holds an apostrophe: every
    one between the braces, also inside a value, has become a double
    quote. *)
Theorem normalized_has_no_apostrophe response_text :
  ~ In quote (list_ascii_of_string (normalized response_text)).
Proof.
  unfold normalized, extract_json, py_strip. intros H.
  apply In_rstrip, In_lstrip, In_replace_pair in H.
  destruct H as [H | H].
  - revert H. apply replace_char_removes. vm_compute. discriminate.
  - vm_compute in H. destruct H as [H | []]. discriminate H.
Qed.

Lemma replace_char_absent old new s :
  ~ In old (list_ascii_of_string s) -> py_replace_char old new s = s.
Proof.
  induction s as [| x s IH]; cbn; [reflexivity |]. intros H.
  destruct (Ascii.eqb_spec x old) as [-> | Hne]; [exfalso; apply H; left; reflexivity |].
  rewrite IH by tauto. reflexivity.
Qed.

Lemma replace_pair_absent a b new s :
  ~ In a (list_ascii_of_string s) -> py_replace_pair a b new s = s.
Proof.
  induction s as [| x s IH]; [reflexivity |]. intros H. cbn [py_replace_pair].
  destruct s as [| y rest]; [reflexivity |].
  destruct (Ascii.eqb_spec x a) as [-> | Hne]; [exfalso; apply H; left; reflexivity |].
  cbn [andb]. rewrite IH; [reflexivity |]. intros Hin. apply H. right. exact Hin.
Qed.

Lemma rstrip_last_char s c :
  last_char s = Some c -> is_space c = false -> py_rstrip s = s.
Proof.
  revert c. induction s as [| x s IH]; intros c Hl Hs; [discriminate Hl |].
  cbn [last_char py_rstrip] in *.
  destruct (last_char s) as [d |] eqn:El.
  - inversion Hl; subst d. rewrite (IH c eq_refl Hs).
    destruct s; [discriminate El | reflexivity].
  - inversion Hl; subst x. destruct s as [| y s]; [cbn; rewrite Hs; reflexivity |].
    cbn in El. destruct (last_char s); discriminate El.
Qed.

Lemma py_find_get s c : forall n,
  py_find s c = Z.of_nat n -> String.get n s = Some c.
Proof.
  induction s as [| x s IH]; intros n H; cbn [py_find] in H; [lia |].
  destruct (Ascii.eqb_spec x c) as [-> | Hne].
  - destruct n; [reflexivity | lia].
  - destruct (Z.eqb_spec (py_find s c) (-1)); [lia |].
    destruct n as [| n]; [pose proof (py_find_range s c); lia |].
    cbn. apply IH. lia.
Qed.

Lemma py_rfind_get s c : forall n,
  py_rfind s c = Z.of_nat n -> String.get n s = Some c.
Proof.
  induction s as [| x s IH]; intros n H; cbn [py_rfind] in H; [lia |].
  destruct (Z.eqb_spec (py_rfind s c) (-1)).
  - destruct (Ascii.eqb_spec x c) as [-> | Hne]; [| lia].
    destruct n; [reflexivity | lia].
  - destruct n as [| n]; [pose proof (py_rfind_range s c); lia |].
    cbn. apply IH. lia.
Qed.

Lemma substring_head s : forall n m c,
  String.get n s = Some c ->
  exists rest, String.substring n (S m) s = String c rest.
Proof.
  induction s as [| x s IH]; intros n m c H; [destruct n; discriminate H |].
  destruct n as [| n]; cbn in H |- *.
  - inversion H; subst x. eauto.
  - apply IH. exact H.
Qed.

Lemma substring_last s : forall a r c,
  a <= r -> String.get r s = Some c ->
  last_char (String.substring a (r + 1 - a) s) = Some c.
Proof.
  induction s as [| x s IH]; intros a r c Har H; [destruct r; discriminate H |].
  destruct a as [| a].
  - rewrite Nat.sub_0_r, Nat.add_1_r. cbn [String.substring last_char].
    destruct r as [| r].
    + cbn in H. inversion H; subst x. rewrite substring_0_length. reflexivity.
    + cbn in H. specialize (IH 0 r c (Nat.le_0_l r) H).
      rewrite Nat.sub_0_r, Nat.add_1_r in IH. rewrite IH. reflexivity.
  - destruct r as [| r]; [lia |]. cbn in H |- *. apply IH; [lia | exact H].
Qed.

(** X12. An answer that holds no apostrophe and no backslash, with the first
    opening brace before the last closing brace, reaches the decoder as the
    exact text from that opening brace to that closing brace: the prose
    around the object is cut off and nothing else is changed. *)
Theorem clean_answer_extracted_unchanged response_text start stop :
  py_find response_text lbrace = Z.of_nat start ->
  py_rfind response_text rbrace = Z.of_nat stop ->
  start < stop ->
  ~ In quote (list_ascii_of_string response_text) ->
  ~ In backslash (list_ascii_of_string response_text) ->
  normalized response_text = String.substring start (stop + 1 - start) response_text.
Proof.
  intros Ef Er Hlt Hq Hb. unfold normalized, extract_json, str_slice.
  rewrite Ef, Er.
  replace (Z.to_nat (Z.of_nat stop + 1) - Z.to_nat (Z.of_nat start))
    with (stop + 1 - start) by lia.
  rewrite Nat2Z.id.
  set (json_str := String.substring start (stop + 1 - start) response_text).
  rewrite replace_char_absent by (intros H; apply Hq; eapply In_substring; exact H).
  rewrite replace_pair_absent by (intros H; apply Hb; eapply In_substring; exact H).
  unfold py_strip.
  destruct (substring_head response_text start (stop - start) lbrace
              (py_find_get _ _ _ Ef)) as [rest Eh].
  replace (S (stop - start)) with (stop + 1 - start) in Eh by lia. fold json_str in Eh.
  assert (El : py_lstrip json_str = json_str) by (rewrite Eh; reflexivity).
  rewrite El. apply (rstrip_last_char json_str rbrace); [| reflexivity].
  apply substring_last; [lia | apply py_rfind_get; exact Er].
Qed.

Lemma clean_answer_extracted_unchanged_witness :
  normalized "Result: {} as requested."
  = String.substring 8 (9 + 1 - 8) "Result: {} as requested.".
Proof.
  apply clean_answer_extracted_unchanged; try reflexivity; try lia;
    vm_compute; intuition discriminate.
Defined.

(** ** What a batch adds, and when the run ends with an exception *)

Lemma parse_response_Some json_loads response_text v l :
  parse_response json_loads response_text = (Some v, l) ->
  exists items, py_iter v = Ok items.
Proof.
  unfold parse_response.
  destruct (negb _ && negb _); [| discriminate].
  destruct (json_loads _) as [result |]; [| discriminate].
  destruct (py_in "elements" result) as [[|] | e]; try discriminate.
  destruct (py_getitem result "elements") as [els | e]; cbn; [| discriminate].
  destruct els; cbn; try discriminate; intros H; inversion H; subst; cbn; eauto.
Qed.

Lemma parse_response_log json_loads response_text n :
  ~ In (BatchFailed n) (snd (parse_response json_loads response_text)).
Proof.
  unfold parse_response.
  destruct (negb _ && negb _); [| cbn; intuition discriminate].
  destruct (json_loads _) as [result |]; [| cbn; intuition discriminate].
  destruct (py_in "elements" result) as [[|] | e]; try (cbn; intuition discriminate).
  destruct (elements ← py_getitem result "elements"; n ← py_len elements; mret (elements, n))
    as [[els m] | e]; cbn; intuition discriminate.
Qed.

(** X13. The message that a batch failed is printed exactly when creating
    the client raised; for an answer that was received, whatever it holds,
    extending the result list never raises. *)
Theorem batch_failed_only_on_client_error service json_loads k batch
    initial_screenshot url n :
  In (BatchFailed n) (snd (analyze_step service json_loads k batch initial_screenshot url))
  <-> service k (build_request batch url) = ClientRaises /\ n = k + 1.
Proof.
  unfold analyze_step, analyze_focus_batch.
  destruct (service k (build_request batch url)) as [| | text] eqn:Es.
  - cbn. split; [intros [H | []]; inversion H; auto | intros [_ ->]; auto].
  - cbn. split; [intros [H | [H | []]]; discriminate H | intros [H _]; discriminate H].
  - pose proof (parse_response_log json_loads text n) as Hlog.
    destruct (parse_response json_loads text) as [[v |] l] eqn:Ep; cbn [snd] in Hlog.
    + destruct (parse_response_Some _ _ _ _ Ep) as [items Ei]. rewrite Ei.
      destruct (truthy v); cbn [snd].
      * split; [tauto | intros [H _]; discriminate H].
      * rewrite in_app_iff. cbn.
        split; [intros [H | [H | []]]; [tauto | discriminate H] | intros [H _]; discriminate H].
    + cbn [snd]. rewrite in_app_iff. cbn.
      split; [intros [H | [H | []]]; [tauto | discriminate H] | intros [H _]; discriminate H].
Qed.

Lemma judged_shape r : judged r = lacks_analysis r || well_formed r.
Proof.
  unfold judged, well_formed, judge, lacks_analysis, focus_visible_of.
  destruct r as [| b | z | f | s | l | d]; cbn; try reflexivity.
  - destruct (str_contains "analysis" s); reflexivity.
  - destruct (existsb (is_str "analysis") l); reflexivity.
  - destruct (dict_lookup "analysis" d) as [[| | | | | | a] |]; cbn; reflexivity.
Qed.

(** X14. A report is returned exactly when every collected entry is a dict
    that has no analysis key or whose analysis is itself a dict; any other
    entry (a number, a string, a list, null, or a dict whose analysis is not
    a dict) ends the run with an exception. *)
Theorem report_iff_entries_are_dicts service json_loads focus_results
    initial_screenshot url :
  (exists rep log,
      process_focus_results service json_loads focus_results initial_screenshot url
      = (Ok rep, log))
  <-> Forall (fun r => lacks_analysis r = true \/ well_formed r = true)
        (collected service json_loads initial_screenshot url focus_results).
Proof.
  rewrite process_focus_results_spec.
  assert (Hiff : forall r, judged r = true
                           <-> lacks_analysis r = true \/ well_formed r = true).
  { intros r. rewrite judged_shape. apply orb_true_iff. }
  split.
  - intros (rep & log & H). apply aggregate_Ok in H. destruct H as [Hj _].
    eapply Forall_impl; [exact Hj |]. intros r. apply Hiff.
  - intros H. eexists _, _. apply aggregate_judged.
    eapply Forall_impl; [exact H |]. intros r. apply Hiff.
Qed.

Lemma chars_head s : s <> "" -> exists x rest, chars s = PStr x :: rest.
Proof. destruct s as [| c s]; [congruence | cbn; eauto]. Qed.

Lemma judged_PStr x : judged (PStr x) = false.
Proof.
  unfold judged, judge. cbn. destruct (str_contains "analysis" x); reflexivity.
Qed.

(** X15. When the elements value of an answer is a string or a dict that is
    not empty, its characters or keys are collected as entries, and the run
    ends with an exception instead of a report. *)
Theorem non_list_elements_abort service json_loads focus_results initial_screenshot url
    pre batch post v l :
  make_batches focus_results = pre ++ batch :: post ->
  analyze_focus_batch service json_loads (length pre) batch initial_screenshot url
  = (Ok (Some v), l) ->
  (exists s, v = PStr s /\ s <> "") \/ (exists d, v = PDict d /\ d <> []) ->
  exists e log,
    process_focus_results service json_loads focus_results initial_screenshot url
    = (Raise e, log).
Proof.
  intros Hb Ha Hv.
  assert (Hitem : exists x rest,
             fst (analyze_step service json_loads (length pre) batch initial_screenshot url)
             = PStr x :: rest).
  { unfold analyze_step. rewrite Ha.
    destruct Hv as [(s & -> & Hs) | (d & -> & Hd)].
    - destruct (chars_head s Hs) as (x & rest & Ec).
      destruct s as [| c s]; [congruence |]. cbn in Ec |- *. eauto.
    - destruct d as [| [key val] d]; [congruence |]. cbn. eauto. }
  destruct Hitem as (x & rest & Hitem).
  destruct (process_focus_results service json_loads focus_results initial_screenshot url)
    as [[rep | e] log] eqn:Ep; [| eauto].
  exfalso. rewrite process_focus_results_spec in Ep.
  apply aggregate_Ok in Ep. destruct Ep as [Hj _].
  unfold collected in Hj. rewrite Hb, contributions_app in Hj.
  cbn [contributions] in Hj. rewrite Nat.add_0_l, Hitem in Hj.
  rewrite concat_app in Hj. cbn [concat] in Hj.
  apply Forall_app in Hj. destruct Hj as [_ Hj].
  inversion Hj as [| ? ? Hx _]; subst. rewrite judged_PStr in Hx. discriminate Hx.
Qed.

Lemma non_list_elements_abort_witness :
  exists e log,
    process_focus_results stringly_service stringly_loads mixed_records "" example_url
    = (Raise e, log).
Proof.
  apply (non_list_elements_abort stringly_service stringly_loads mixed_records ""
           example_url [] mixed_records [] (PStr "none") [AnalysisDone 4]).
  - reflexivity.
  - vm_compute. reflexivity.
  - left. eexists. split; [reflexivity | discriminate].
Defined.

(** ** Reports *)

Lemma contributions_all_fail service json_loads initial_screenshot url batches :
  forall idx,
    (forall k b, batches !! k = Some b ->
                 call_fails service json_loads (idx + k) (build_request b url)) ->
    concat (contributions service json_loads initial_screenshot url idx batches) = [].
Proof.
  induction batches as [| b rest IH]; intros idx Hall; [reflexivity |].
  cbn [contributions concat].
  destruct (analyze_step_fails service json_loads idx b initial_screenshot url)
    as (l & El & _).
  { specialize (Hall 0 b eq_refl). rewrite Nat.add_0_r in Hall. exact Hall. }
  rewrite El. cbn [fst app]. apply IH. intros k b' Hk.
  replace (S idx + k) with (idx + S k) by lia. apply Hall. exact Hk.
Qed.

(** X16. When the call fails for every batch, and also when there is no
    record at all, the run still returns a report: nothing classified, and
    the page declared compliant. *)
Theorem all_batches_failing_gives_compliant_report service json_loads focus_results
    initial_screenshot url :
  (forall k b, make_batches focus_results !! k = Some b ->
               call_fails service json_loads k (build_request b url)) ->
  fst (process_focus_results service json_loads focus_results initial_screenshot url)
  = Ok {| url := url;
          total_focusable_elements := 0;
          visible_focus_elements := 0;
          invisible_focus_elements := 0;
          visible_elements := [];
          invisible_elements := [];
          wcag_2_4_7_compliant := true |}.
Proof.
  intros Hall. rewrite process_focus_results_spec. unfold collected.
  rewrite contributions_all_fail by exact Hall. reflexivity.
Qed.

Lemma all_batches_failing_gives_compliant_report_witness :
  fst (process_focus_results down_service five_loads seven_records "" example_url)
  = Ok {| url := example_url;
          total_focusable_elements := 0;
          visible_focus_elements := 0;
          invisible_focus_elements := 0;
          visible_elements := [];
          invisible_elements := [];
          wcag_2_4_7_compliant := true |}.
Proof.
  apply all_batches_failing_gives_compliant_report.
  intros k b _. right. left. reflexivity.
Defined.

Lemma sublist_list_filter {A} (p : A -> bool) l : sublist (List.filter p l) l.
Proof.
  induction l as [| x l IH]; cbn; [constructor |].
  destruct (p x); [apply sublist_skip | apply sublist_cons]; exact IH.
Qed.

(** X17. In every report the visible and the invisible list are taken from
    the collected entries in their order; no entry is in both, and every
    collected entry that has an analysis key is in one of them. *)
Theorem report_lists_partition_collected service json_loads focus_results
    initial_screenshot url rep log :
  process_focus_results service json_loads focus_results initial_screenshot url
  = (Ok rep, log) ->
  let all := collected service json_loads initial_screenshot url focus_results in
  sublist (visible_elements rep) all
  /\ sublist (invisible_elements rep) all
  /\ (forall r, In r (visible_elements rep) -> ~ In r (invisible_elements rep))
  /\ (forall r, In r all -> lacks_analysis r = false ->
                In r (visible_elements rep) \/ In r (invisible_elements rep)).
Proof.
  intros H all. rewrite process_focus_results_spec in H. fold all in H.
  apply aggregate_Ok in H. destruct H as (Hj & -> & _).
  cbn [visible_elements invisible_elements make_report].
  split; [apply sublist_list_filter |]. split; [apply sublist_list_filter |]. split.
  - intros r Hv Hi. apply filter_In in Hv, Hi. destruct Hv as [_ Hv], Hi as [_ Hi].
    unfold is_visible, is_invisible in *.
    destruct (judge r) as [[| | idx] | e]; discriminate.
  - intros r Hin Hl. rewrite !filter_In.
    rewrite Forall_forall in Hj. specialize (Hj r).
    rewrite <- list_elem_of_In in Hin. specialize (Hj Hin).
    rewrite <- list_elem_of_In.
    rewrite <- is_skipped_lacks_analysis in Hl.
    unfold judged in Hj. unfold is_visible, is_invisible, is_skipped in *.
    destruct (judge r) as [[| | idx] | e]; try discriminate; auto.
Qed.

Lemma report_lists_partition_collected_witness :
  let rep := make_report example_url [visible_entry 0; incomplete_entry 1]
               [visible_entry 0] [] in
  let all := collected mixed_service mixed_loads "" example_url mixed_records in
  sublist (visible_elements rep) all
  /\ sublist (invisible_elements rep) all
  /\ (forall r, In r (visible_elements rep) -> ~ In r (invisible_elements rep))
  /\ (forall r, In r all -> lacks_analysis r = false ->
                In r (visible_elements rep) \/ In r (invisible_elements rep)).
Proof.
  apply (report_lists_partition_collected mixed_service mixed_loads mixed_records ""
           example_url _ [AnalysisDone 2; ResultIncomplete (PInt 1)]).
  vm_compute. reflexivity.
Defined.

(** X18. The judgement is taken by its truth value, not by its type: an
    entry whose focus_visible is a string that is not empty, whatever it
    says, is reported visible in every report over a list that holds it. *)
Theorem string_judgement_counts_as_visible service json_loads focus_results
    initial_screenshot url rep log e s :
  process_focus_results service json_loads focus_results initial_screenshot url
  = (Ok rep, log) ->
  In e (collected service json_loads initial_screenshot url focus_results) ->
  focus_visible_of e = Some (PStr s) ->
  s <> "" ->
  In e (visible_elements rep) /\ ~ In e (invisible_elements rep).
Proof.
  intros H Hin Hfv Hs. rewrite process_focus_results_spec in H.
  apply aggregate_Ok in H. destruct H as (_ & -> & _).
  cbn [visible_elements invisible_elements make_report].
  assert (Ht : truthy (PStr s) = true) by (destruct s; [congruence | reflexivity]).
  split.
  - apply filter_In. split; [exact Hin |]. rewrite is_visible_spec, Hfv. exact Ht.
  - apply filter_In_false. rewrite is_invisible_spec, Hfv, Ht. reflexivity.
Qed.

Lemma string_judgement_counts_as_visible_witness :
  In quoted_entry (visible_elements (make_report example_url [quoted_entry] [quoted_entry] []))
  /\ ~ In quoted_entry
         (invisible_elements (make_report example_url [quoted_entry] [quoted_entry] [])).
Proof.
  apply (string_judgement_counts_as_visible quoted_service quoted_loads mixed_records ""
           example_url _ [AnalysisDone 1] quoted_entry "false").
  - vm_compute. reflexivity.
  - vm_compute. left. reflexivity.
  - reflexivity.
  - discriminate.
Defined.

(** ** The run and the machine *)

Lemma released_after_setup_witness :
  (mkdtemp healthy_world
     ∉ temp_dirs (snd (check_focus_visibility healthy_world example_url empty_os)))
  /\ (4711 ∉ sessions (snd (check_focus_visibility healthy_world example_url empty_os))).
Proof.
  apply (released_after_setup healthy_world example_url empty_os 4711);
    try reflexivity. discriminate.
Defined.

(** X20. When [driver.quit()] raises in the finally block, its exception is
    what the function raises, also when a report had been computed; the
    messages printed so far are those of the run, and the session and the
    directory are left behind. *)
Theorem quit_failure_loses_report w url os driver :
  chrome w = Some driver ->
  quit_raises w = true ->
  fst (check_focus_visibility w url os)
  = (Raise WebDriverException, snd (traverse_and_process w url))
  /\ mkdtemp w ∈ temp_dirs (snd (check_focus_visibility w url os))
  /\ driver ∈ sessions (snd (check_focus_visibility w url os)).
Proof.
  intros Ec Eq.
  unfold check_focus_visibility, setup_driver, driver_quit. rewrite Ec, Eq.
  destruct (traverse_and_process w url) as [result log].
  cbn [fst snd temp_dirs sessions].
  split; [reflexivity |].
  split; apply elem_of_union_l, elem_of_singleton; reflexivity.
Qed.

Lemma quit_failure_loses_report_witness :
  (exists rep, fst (traverse_and_process stuck_quit_world example_url) = Ok rep)
  /\ fst (check_focus_visibility stuck_quit_world example_url empty_os)
     = (Raise WebDriverException, snd (traverse_and_process stuck_quit_world example_url))
  /\ mkdtemp stuck_quit_world
       ∈ temp_dirs (snd (check_focus_visibility stuck_quit_world example_url empty_os))
  /\ 4711 ∈ sessions (snd (check_focus_visibility stuck_quit_world example_url empty_os)).
Proof.
  split; [eexists; vm_compute; reflexivity |].
  apply (quit_failure_loses_report stuck_quit_world example_url empty_os 4711);
    reflexivity.
Defined.

(** X21. A run touches no directory but the one it made and no session but
    the one it started: every other directory and session is there after the
    run exactly if it was there before. *)
Theorem run_touches_only_its_own w url os :
  (forall d, d <> mkdtemp w ->
     (d ∈ temp_dirs (snd (check_focus_visibility w url os)) <-> d ∈ temp_dirs os))
  /\ (forall s, chrome w <> Some s ->
     (s ∈ sessions (snd (check_focus_visibility w url os)) <-> s ∈ sessions os)).
Proof.
  unfold check_focus_visibility, setup_driver, driver_quit, cleanup_temp_dir.
  destruct (chrome w) as [driver |].
  - destruct (traverse_and_process w url) as [result log].
    destruct (quit_raises w); cbn [snd temp_dirs sessions].
    + split; intros x Hx; rewrite elem_of_union, elem_of_singleton;
        [tauto | split; [intros [-> | H]; [congruence | exact H] | tauto]].
    + destruct (negb _ && bool_decide _); [destruct (rmtree_removes w) |];
        cbn [snd temp_dirs sessions]; split; intros x Hx;
        rewrite ?elem_of_difference, ?elem_of_union, ?elem_of_singleton;
        try tauto;
        (split; [intros [[-> | H] Hn]; [congruence | exact H]
                | intros H; split; [right; exact H | congruence]]).
  - cbn [snd temp_dirs sessions]. split; intros x Hx;
      rewrite ?elem_of_union, ?elem_of_singleton; tauto.
Qed.

(** ** The command line *)

(** X22. The exit code is 0 exactly when the program was called with one
    argument and the run returned a report, and 1 otherwise; whether the
    report says compliant plays no part. *)
Theorem main_exit_code argv w os :
  (exit_code (main argv w os) = 0
   <-> exists prog url rep,
         argv = [prog; url]
         /\ fst (fst (check_focus_visibility w url os)) = Ok rep)
  /\ (exit_code (main argv w os) = 0 \/ exit_code (main argv w os) = 1).
Proof.
  assert (Husage : forall a : list string,
             length a <> 2 ->
             (1 = 0 <-> exists prog url rep,
                          a = [prog; url]
                          /\ fst (fst (check_focus_visibility w url os)) = Ok rep)
             /\ (1 = 0 \/ 1 = 1)).
  { intros a Ha. split; [| right; reflexivity]. split; [discriminate |].
    intros (p & u & r & -> & _). cbn in Ha. congruence. }
  unfold main.
  destruct argv as [| prog [| url [| extra argv]]];
    try (apply Husage; cbn; lia).
  destruct (check_focus_visibility w url os) as [[[rep | e] log] os'] eqn:Ec; cbn.
  - split; [| left; reflexivity]. split; [| reflexivity].
    intros _. exists prog, url, rep. rewrite Ec. auto.
  - split; [| right; reflexivity]. split; [discriminate |].
    intros (p & u & r & E & H). inversion E; subst. rewrite Ec in H.
    cbn in H. discriminate H.
Qed.

(** Called with any number of arguments other than one, the program
    prints the usage line and ends with exit code 1; no browser is started,
    no directory is made and nothing else is printed. *)
Theorem main_usage_runs_nothing argv w os :
  length argv <> 2 ->
  main argv w os
  = {| exit_code := 1; messages := []; printed := [Usage]; machine := os |}.
Proof.
  intros H. destruct argv as [| prog [| url [| extra argv]]]; try reflexivity.
  cbn in H. congruence.
Qed.

Lemma main_usage_runs_nothing_witness :
  main ["wcag_focus_visible_checker.py"] healthy_world empty_os
  = {| exit_code := 1; messages := []; printed := [Usage]; machine := empty_os |}.
Proof. apply main_usage_runs_nothing. cbn. lia. Defined.

Lemma run_prints_Forall (P : line -> Prop) steps :
  P ElementError ->
  Forall (fun s => forall ls, s = Ok ls -> Forall P ls) steps ->
  Forall P (run_prints steps).
Proof.
  intros He. induction 1 as [| s rest Hs _ IH]; cbn; [constructor |].
  destruct s as [ls | e]; [| repeat constructor; exact He].
  apply Forall_app. split; [apply Hs; reflexivity | exact IH].
Qed.

Lemma print_invisible_element_lines element :
  Forall (fun l => is_element_line l = true) (print_invisible_element element).
Proof.
  unfold print_invisible_element. apply run_prints_Forall; [reflexivity |].
  repeat (apply Forall_cons; split; [element_lines_step |]). apply Forall_nil_2.
Qed.

Lemma print_visible_element_lines element :
  Forall (fun l => is_element_line l = true) (print_visible_element element).
Proof.
  unfold print_visible_element. apply run_prints_Forall; [reflexivity |].
  repeat (apply Forall_cons; split; [element_lines_step |]). apply Forall_nil_2.
Qed.

Lemma flat_map_lines (f : pyval -> list line) l x :
  (forall e, Forall (fun l => is_element_line l = true) (f e)) ->
  is_element_line x = false -> ~ In x (flat_map f l).
Proof.
  intros Hf Hx Hin. apply in_flat_map in Hin. destruct Hin as (e & _ & Hin).
  specialize (Hf e). rewrite Forall_forall in Hf.
  apply list_elem_of_In in Hin. specialize (Hf x Hin). congruence.
Qed.

(** X23. When the run returns a report, the section of the elements without
    visible focus is printed exactly when the report is not compliant, the
    section of those with visible focus always; the exit code is 0 in both
    cases. *)
Theorem invisible_section_iff_non_compliant prog url w os rep :
  fst (fst (check_focus_visibility w url os)) = Ok rep ->
  (In InvisibleSection (printed (main [prog; url] w os))
   <-> wcag_2_4_7_compliant rep = false)
  /\ In VisibleSection (printed (main [prog; url] w os))
  /\ exit_code (main [prog; url] w os) = 0.
Proof.
  intros H. unfold main.
  destruct (check_focus_visibility w url os) as [[r log] os']. cbn in H. subst r.
  cbn [printed exit_code]. unfold print_report.
  pose proof (flat_map_lines print_invisible_element (invisible_elements rep)
                InvisibleSection print_invisible_element_lines eq_refl) as Hi.
  pose proof (flat_map_lines print_visible_element (visible_elements rep)
                InvisibleSection print_visible_element_lines eq_refl) as Hv.
  split; [| split; [| reflexivity]].
  - destruct (wcag_2_4_7_compliant rep); cbn [negb In app].
    + split; [| discriminate]. intros [E | [E | [E | Hin]]]; try discriminate E.
      exfalso. exact (Hv Hin).
    + split; [reflexivity |]. intros _. right. right. left. reflexivity.
  - right. right. apply in_or_app. right. left. reflexivity.
Qed.

Lemma invisible_section_iff_non_compliant_witness :
  (In InvisibleSection
      (printed (main ["checker.py"; example_url] failing_page_world empty_os))
   <-> wcag_2_4_7_compliant
         (make_report example_url [visible_entry 0; invisible_entry 1]
            [visible_entry 0] [invisible_entry 1]) = false)
  /\ In VisibleSection
       (printed (main ["checker.py"; example_url] failing_page_world empty_os))
  /\ exit_code (main ["checker.py"; example_url] failing_page_world empty_os) = 0.
Proof.
  apply invisible_section_iff_non_compliant. vm_compute. reflexivity.
Defined.

(** X24. For an entry with an analysis dict, as every listed entry has: the
    block of an element without visible focus ends in the error line
    exactly when the entry lacks tab_index or element_tag, and then the error
    line is all that is printed for it; otherwise seven lines are printed.
    The block of an element with visible focus ends in the error line
    exactly when one of these keys is missing or the value under
    compliance_techniques cannot be iterated. *)
Theorem element_block_errors d a :
  dict_lookup "analysis" d = Some (PDict a) ->
  (In ElementError (print_invisible_element (PDict d))
   <-> dict_lookup "tab_index" d = None \/ dict_lookup "element_tag" d = None)
  /\ (In ElementError (print_invisible_element (PDict d)) ->
      print_invisible_element (PDict d) = [ElementError])
  /\ (~ In ElementError (print_invisible_element (PDict d)) ->
      length (print_invisible_element (PDict d)) = 7)
  /\ (In ElementError (print_visible_element (PDict d))
      <-> dict_lookup "tab_index" d = None \/ dict_lookup "element_tag" d = None
          \/ exists t e, dict_lookup "compliance_techniques" a = Some t
                         /\ py_iter t = Raise e).
Proof.
  intros Ha.
  unfold print_invisible_element, print_visible_element, print_header, print_field,
    analysis_has.
  unfold mbind, res_bind, mret, res_ret. cbn [py_getitem py_get py_in]. rewrite Ha.
  cbn [py_getitem py_get py_in].
  destruct (dict_lookup "tab_index" d) as [ti |];
    [destruct (dict_lookup "element_tag" d) as [tag |] |].
  - destruct (dict_lookup "focus_indicator_description" a) as [fid |];
      (destruct (dict_lookup "compliance_techniques" a) as [t |];
       [destruct (py_iter t) as [items | e] eqn:Ei |]);
      cbn [run_prints app length In];
      (split; [split; [intuition discriminate | intros [H | H]; discriminate H] |]);
      (split; [intuition discriminate |]); (split; [reflexivity |]);
      rewrite ?in_app_iff; cbn [In];
      (split;
       [ intros H; right; right;
         try (exists t, e; split; [reflexivity | exact Ei]);
         exfalso;
         repeat (destruct H as [H | H]; try discriminate H);
         try (apply in_map_iff in H; destruct H as (? & H & _); discriminate H);
         try exact H
       | intros [H | [H | (t' & e' & Et & Ee)]]; try discriminate H;
         try (inversion Et; subst; congruence); auto 10 ]).
  - cbn [run_prints In length]. repeat split; auto; try tauto; intros; try lia;
      try (exfalso; intuition discriminate).
  - cbn [run_prints In length]. repeat split; auto; try tauto; intros; try lia;
      try (exfalso; intuition discriminate).
Qed.

Lemma element_block_errors_witness :
  (In ElementError (print_invisible_element (invisible_entry 1))
   <-> dict_lookup "tab_index"
         [("tab_index", PInt 1); ("element_tag", PStr "A");
          ("analysis", PDict [("focus_visible", PBool false);
                              ("focus_indicator_description", PStr "no change")])]
       = None
       \/ dict_lookup "element_tag"
            [("tab_index", PInt 1); ("element_tag", PStr "A");
             ("analysis", PDict [("focus_visible", PBool false);
                                 ("focus_indicator_description", PStr "no change")])]
          = None)
  /\ length (print_invisible_element (invisible_entry 1)) = 7.
Proof.
  destruct (element_block_errors
              [("tab_index", PInt 1); ("element_tag", PStr "A");
               ("analysis", PDict [("focus_visible", PBool false);
                                   ("focus_indicator_description", PStr "no change")])]
              [("focus_visible", PBool false);
               ("focus_indicator_description", PStr "no change")] eq_refl)
    as (H1 & _ & H3 & _).
  split; [exact H1 |]. apply H3. rewrite H1. intros [H | H]; discriminate H.
Defined.

(** ** The older copy against the main file *)

Lemma copy_categorize_length results : forall visible invisible v i,
  Copy.categorize results visible invisible = Ok (v, i) ->
  length v + length i = length visible + length invisible + length results.
Proof.
  induction results as [| r rest IH]; intros visible invisible v i H.
  - cbn in H. inversion H; subst. cbn. lia.
  - cbn [Copy.categorize] in H. unfold mbind, res_bind in H.
    destruct (py_getitem r "analysis") as [a |]; [| discriminate H].
    destruct (py_getitem a "focus_visible") as [fv |]; [| discriminate H].
    destruct (truthy fv); apply IH in H; rewrite length_app in H; cbn in H |- *; lia.
Qed.

(** X25. In the older copy every report that is returned has a total equal
    to the visible count plus the invisible count. *)
Theorem copy_report_total_is_sum service json_loads focus_results initial_screenshot
    url rep :
  Copy.process_focus_results service json_loads focus_results initial_screenshot url
  = Ok rep ->
  total_focusable_elements rep = visible_focus_elements rep + invisible_focus_elements rep.
Proof.
  unfold Copy.process_focus_results, mbind, res_bind, mret, res_ret. intros H.
  destruct (Copy.analyze_batches _ _ _ _ _ _ _) as [all |]; [| discriminate H].
  destruct (Copy.categorize all [] []) as [[v i] |] eqn:Ec; [| discriminate H].
  inversion H; subst. cbn. apply copy_categorize_length in Ec. cbn in Ec. lia.
Qed.

Lemma copy_report_total_is_sum_witness :
  total_focusable_elements (make_report example_url three_visible three_visible [])
  = visible_focus_elements (make_report example_url three_visible three_visible [])
    + invisible_focus_elements (make_report example_url three_visible three_visible []).
Proof.
  apply (copy_report_total_is_sum copy_three_service
           (table_loads [(three_text, answer three_visible)]) abc_records ""
           example_url).
  vm_compute. reflexivity.
Defined.

Lemma copy_analyze_batches_raises service json_loads initial_screenshot url batch post pre :
  forall idx all,
    (service (idx + length pre) (build_request batch url) = Copy.ClientRaises
     \/ service (idx + length pre) (build_request batch url) = Copy.CreateRaises) ->
    exists e,
      Copy.analyze_batches service json_loads idx (pre ++ batch :: post)
        initial_screenshot url all = Raise e.
Proof.
  induction pre as [| b pre IH]; intros idx all Hr.
  - cbn [app length] in *. rewrite Nat.add_0_r in Hr.
    cbn [Copy.analyze_batches]. unfold Copy.analyze_focus_batch.
    destruct Hr as [-> | ->]; cbn; eauto.
  - cbn [app length Copy.analyze_batches] in *. unfold mbind, res_bind.
    assert (Hr' : service (S idx + length pre) (build_request batch url) = Copy.ClientRaises
                  \/ service (S idx + length pre) (build_request batch url)
                     = Copy.CreateRaises).
    { replace (S idx + length pre) with (idx + S (length pre)) by lia. exact Hr. }
    destruct (Copy.analyze_focus_batch service json_loads idx b initial_screenshot url)
      as [[v |] | e]; [| apply IH; exact Hr' | eauto].
    destruct (truthy v); [| apply IH; exact Hr'].
    destruct (py_iter v) as [items | e]; [apply IH; exact Hr' | eauto].
Qed.

(** X26. In the older copy a call whose client or request raises ends the
    whole run with an exception, whichever batch it is: no report is
    returned. *)
Theorem copy_raising_call_aborts service json_loads focus_results initial_screenshot url
    pre batch post :
  make_batches focus_results = pre ++ batch :: post ->
  service (length pre) (build_request batch url) = Copy.ClientRaises
  \/ service (length pre) (build_request batch url) = Copy.CreateRaises ->
  exists e,
    Copy.process_focus_results service json_loads focus_results initial_screenshot url
    = Raise e.
Proof.
  intros Hb Hr. unfold Copy.process_focus_results. rewrite Hb.
  destruct (copy_analyze_batches_raises service json_loads initial_screenshot url
              batch post pre 0 [] Hr) as [e E].
  rewrite E. cbn. eauto.
Qed.

Lemma copy_raising_call_aborts_witness :
  exists e,
    Copy.process_focus_results copy_failing_service five_loads seven_records ""
      example_url = Raise e.
Proof.
  apply (copy_raising_call_aborts copy_failing_service five_loads seven_records ""
           example_url [take 5 seven_records] (drop 5 seven_records) []).
  - reflexivity.
  - right. reflexivity.
Defined.

Section CopyAgreement.
Variable service : nat -> request -> Copy.service_outcome.
Variable json_loads : string -> option pyval.
Variables initial_screenshot url : string.

Local Abbreviation main_service := (fun k req => outcome_in_main (service k req)).

Lemma copy_parse_response_None response_text :
  Copy.parse_response json_loads response_text = None ->
  fst (parse_response json_loads response_text) = None.
Proof.
  unfold Copy.parse_response, parse_response.
  destruct (negb _ && negb _); [| reflexivity].
  destruct (json_loads _) as [result |]; [| reflexivity].
  destruct (py_in "elements" result) as [[|] | e]; try reflexivity.
  unfold mbind, res_bind.
  destruct (py_getitem result "elements") as [els |]; [discriminate | reflexivity].
Qed.

Lemma copy_parse_response_Some response_text v :
  Copy.parse_response json_loads response_text = Some v ->
  fst (parse_response json_loads response_text)
  = match py_len v with Ok _ => Some v | Raise _ => None end.
Proof.
  unfold Copy.parse_response, parse_response.
  destruct (negb _ && negb _); [| discriminate].
  destruct (json_loads _) as [result |]; [| discriminate].
  destruct (py_in "elements" result) as [[|] | e]; try discriminate.
  unfold mbind, res_bind, mret, res_ret.
  destruct (py_getitem result "elements") as [els |]; [| discriminate].
  intros H. inversion H; subst. destruct (py_len v); reflexivity.
Qed.

Lemma py_iter_len v items : py_iter v = Ok items -> exists n, py_len v = Ok n.
Proof. destruct v; cbn; try discriminate; eauto. Qed.

(** What the main file collects for a batch, given what the copy's function
    returned for it. *)
Lemma copy_step_agrees k batch r :
  Copy.analyze_focus_batch service json_loads k batch initial_screenshot url = Ok r ->
  match r with
  | None => fst (analyze_step main_service json_loads k batch initial_screenshot url) = []
  | Some v =>
      if truthy v
      then forall items,
             py_iter v = Ok items ->
             fst (analyze_step main_service json_loads k batch initial_screenshot url)
             = items
      else fst (analyze_step main_service json_loads k batch initial_screenshot url) = []
  end.
Proof.
  unfold Copy.analyze_focus_batch, analyze_step, analyze_focus_batch.
  destruct (service k (build_request batch url)) as [| | | text]; cbn [outcome_in_main];
    try discriminate.
  - intros H. inversion H; subst. reflexivity.
  - intros H. inversion H; subst r. clear H.
    destruct (Copy.parse_response json_loads text) as [v |] eqn:Ec.
    + pose proof (copy_parse_response_Some _ _ Ec) as Hm.
      destruct (parse_response json_loads text) as [m l]. cbn [fst] in Hm. subst m.
      destruct (truthy v) eqn:Et.
      * intros items Hi. destruct (py_iter_len _ _ Hi) as [n En]. rewrite En, Et, Hi.
        reflexivity.
      * destruct (py_len v); [rewrite Et |]; reflexivity.
    + pose proof (copy_parse_response_None _ Ec) as Hm.
      destruct (parse_response json_loads text) as [m l]. cbn [fst] in Hm. subst m.
      reflexivity.
Qed.

Lemma copy_analyze_batches_agree batches : forall idx all all',
  Copy.analyze_batches service json_loads idx batches initial_screenshot url all = Ok all' ->
  all' = all ++ concat (contributions main_service json_loads initial_screenshot url
                          idx batches).
Proof.
  induction batches as [| b rest IH]; intros idx all all' H.
  - cbn in H |- *. inversion H. rewrite app_nil_r. reflexivity.
  - cbn [Copy.analyze_batches contributions concat] in H |- *.
    unfold mbind, res_bind in H.
    destruct (Copy.analyze_focus_batch service json_loads idx b initial_screenshot url)
      as [r |] eqn:Ea; [| discriminate H].
    pose proof (copy_step_agrees idx b r Ea) as Hs.
    destruct r as [v |].
    + destruct (truthy v).
      * destruct (py_iter v) as [items |]; [| discriminate H].
        rewrite (Hs items eq_refl). apply IH in H. rewrite H, app_assoc. reflexivity.
      * rewrite Hs. apply IH in H. exact H.
    + rewrite Hs. apply IH in H. exact H.
Qed.

Lemma copy_categorize_agrees results : forall visible invisible v i log,
  Copy.categorize results visible invisible = Ok (v, i) ->
  categorize results visible invisible log = (Ok (v, i), log).
Proof.
  induction results as [| r rest IH]; intros visible invisible v i log H.
  - cbn in H |- *. inversion H. reflexivity.
  - cbn [Copy.categorize] in H. unfold mbind, res_bind in H.
    destruct (py_getitem r "analysis") as [a |] eqn:Ea; [| discriminate H].
    destruct (py_getitem a "focus_visible") as [fv |] eqn:Ef; [| discriminate H].
    cbn [categorize].
    destruct r as [| ? | ? | ? | ? | ? | d]; try discriminate Ea. cbn in Ea |- *.
    destruct (dict_lookup "analysis" d) as [a' |]; [| discriminate Ea].
    inversion Ea; subst a'. unfold mbind, res_bind.
    destruct a as [| ? | ? | ? | ? | ? | ad]; try discriminate Ef. cbn in Ef |- *.
    destruct (dict_lookup "focus_visible" ad) as [fv' |]; [| discriminate Ef].
    inversion Ef; subst fv'.
    destruct (truthy fv); apply IH; exact H.
Qed.

(** X27. Whenever the older copy returns a report, the main file, run
    against the same browser records, answers and decoder, returns the same
    report: its added checks change the outcome only where the copy raised. *)
Theorem main_agrees_with_copy focus_results rep :
  Copy.process_focus_results service json_loads focus_results initial_screenshot url
  = Ok rep ->
  fst (process_focus_results main_service json_loads focus_results initial_screenshot url)
  = Ok rep.
Proof.
  unfold Copy.process_focus_results, mbind, res_bind, mret, res_ret. intros H.
  destruct (Copy.analyze_batches _ _ _ _ _ _ _) as [all |] eqn:Eb; [| discriminate H].
  destruct (Copy.categorize all [] []) as [[v i] |] eqn:Ec; [| discriminate H].
  inversion H; subst rep. cbn [fst snd].
  apply copy_analyze_batches_agree in Eb. cbn [app] in Eb.
  rewrite process_focus_results_spec. unfold aggregate, collected.
  rewrite <- Eb. rewrite (copy_categorize_agrees _ _ _ _ _ _ Ec). reflexivity.
Qed.
End CopyAgreement.

Lemma main_agrees_with_copy_witness :
  fst (process_focus_results (fun k req => outcome_in_main (copy_three_service k req))
         (table_loads [(three_text, answer three_visible)]) abc_records "" example_url)
  = Ok (make_report example_url three_visible three_visible []).
Proof.
  apply main_agrees_with_copy. vm_compute. reflexivity.
Defined.

(** ** The locator script *)

Example getPathTo_link2 : getPathTo page_link2 = Ok "/html/body/nav[1]/a[2]".
Proof. vm_compute. reflexivity. Qed.

(** X28. For a node of a document the locator script returns a path; it
    raises, and the locator becomes Unknown, only for a node whose way up
    ends at an element without parent. *)
Theorem locator_of_attached_node element :
  in_document element = true ->
  exists path, generate_xpath element = XPath path.
Proof.
  intros H. unfold generate_xpath.
  enough (Hp : exists path, getPathTo element = Ok path)
    by (destruct Hp as [path ->]; eauto).
  induction element as [n | n is_body before parent IH].
  - destruct n as [tag id |]; [discriminate H | cbn; eauto].
  - cbn [in_document] in H. destruct (IH H) as [p Ep].
    destruct n as [tag id |]; cbn [getPathTo]; [| eauto].
    destruct (negb (String.eqb id "")); [eauto |].
    destruct is_body; [eauto |]. rewrite Ep. cbn. eauto.
Qed.

Lemma locator_of_attached_node_witness :
  exists path, generate_xpath page_link2 = XPath path.
Proof. apply locator_of_attached_node. reflexivity. Defined.

Lemma append_inj_right t : forall s1 s2, s1 +:+ t = s2 +:+ t -> s1 = s2.
Proof.
  assert (Hlen : forall s1 s2, String.length (s1 +:+ s2) = String.length s1 + String.length s2).
  { induction s1 as [| c s1 IH]; intros s2; [reflexivity |].
    change (String c s1 +:+ s2) with (String c (s1 +:+ s2)). cbn. rewrite IH. reflexivity. }
  induction s1 as [| c s1 IH]; intros s2 H.
  - destruct s2 as [| d s2]; [reflexivity |].
    apply (f_equal String.length) in H. rewrite !Hlen in H.
      cbn [String.length] in H. lia.
  - destruct s2 as [| d s2].
    + apply (f_equal String.length) in H. rewrite !Hlen in H.
      cbn [String.length] in H. lia.
    + change (String c (s1 +:+ t) = String d (s2 +:+ t)) in H.
      inversion H; subst. f_equal. apply IH. assumption.
Qed.

(** X29. Two child elements of the same parent, with the same tag name and
    without id, never get the same path: the one further down counts the
    other among its preceding siblings. *)
Theorem sibling_locators_differ tag before between parent path1 path2 :
  getPathTo (Child (Element tag "") false before parent) = Ok path1 ->
  getPathTo (Child (Element tag "") false (before ++ Element tag "" :: between) parent)
  = Ok path2 ->
  path1 <> path2.
Proof.
  cbn [getPathTo String.eqb negb]. unfold mbind, res_bind, mret, res_ret.
  destruct (getPathTo parent) as [p |]; [| discriminate].
  intros H1 H2 E. inversion H1 as [E1]. inversion H2 as [E2]. clear H1 H2.
  rewrite <- E1, <- E2 in E.
  repeat (apply String.app_inj in E).
  apply append_inj_right in E. apply pretty_nat_inj in E.
  unfold sibling_index in E. rewrite List.filter_app, length_app in E.
  cbn [List.filter same_tag_element] in E. rewrite String.eqb_refl in E.
  cbn [length] in E. lia.
Qed.

Lemma sibling_locators_differ_witness :
  "/html/body/nav[1]/a[1]" <> "/html/body/nav[1]/a[2]".
Proof.
  apply (sibling_locators_differ "A" [OtherNode] [OtherNode] page_nav);
    vm_compute; reflexivity.
Defined.

Lemma getPathTo_with_id e tag id :
  node_of e = Element tag id -> id <> "" -> getPathTo e = Ok (id_path id).
Proof.
  intros Hn Hid.
  assert (Hb : negb (String.eqb id "") = true).
  { destruct (String.eqb_spec id ""); [congruence | reflexivity]. }
  destruct e as [n | n b before parent]; cbn in Hn; subst n; cbn [getPathTo];
    rewrite Hb; reflexivity.
Qed.

(** X30. Two elements in a row that carry the same id (not empty), tag and
    class get the same locator and hence the same signature, wherever they
    stand in the page: the traversal takes the second for a repeat of the
    first and stops. *)
Theorem duplicate_id_stops_traversal browser o0 o1 e0 e1 after :
  browser 0 = Focused o0 ->
  obs_after o0 = Some after ->
  browser 1 = Focused o1 ->
  obs_xpath o0 = generate_xpath e0 ->
  obs_xpath o1 = generate_xpath e1 ->
  node_of e0 = Element (obs_tag o0) (obs_id o0) ->
  node_of e1 = Element (obs_tag o1) (obs_id o1) ->
  obs_id o0 <> "" ->
  obs_id o1 = obs_id o0 ->
  obs_tag o1 = obs_tag o0 ->
  obs_class o1 = obs_class o0 ->
  traverse browser = Ok [element_info 0 o0 after].
Proof.
  intros E0 Ea E1 X0 X1 N0 N1 Hid Hi Ht Hc.
  assert (Hs : obs_signature o1 = obs_signature o0).
  { unfold obs_signature, obs_locator. rewrite X0, X1. unfold generate_xpath.
    rewrite (getPathTo_with_id e0 _ _ N0 Hid).
    rewrite (getPathTo_with_id e1 _ _ N1) by (rewrite Hi; exact Hid).
    rewrite Ht, Hi, Hc. reflexivity. }
  assert (Hseen : seen_upto browser 1 = {[obs_signature o0]} ∪ ∅).
  { cbn [seen_upto]. unfold step_signature. rewrite E0. reflexivity. }
  unfold traverse.
  transitivity (Ok (records_upto browser (0 + 1)));
    [apply (tab_loop_stops_at_repeat browser 1 max_tabs 0 o1) |].
  6: { cbn [records_upto Nat.add]. unfold step_record. rewrite E0, Ea. reflexivity. }
  - unfold max_tabs. lia.
  - unfold max_tabs. lia.
  - intros i Hi'. assert (i = 0) as -> by lia.
    exists o0, after. repeat split; try assumption. cbn [seen_upto]. solve_seen.
  - exact E1.
  - cbn [Nat.add]. rewrite Hseen, Hs. solve_seen.
Qed.

Lemma duplicate_id_stops_traversal_witness :
  traverse twin_browser = Ok [element_info 0 (twin_obs twin1) "iVBORw0KGgp="].
Proof.
  apply (duplicate_id_stops_traversal twin_browser (twin_obs twin1) (twin_obs twin2)
           twin1 twin2); try reflexivity.
  discriminate.
Defined.
